(** * mdgeom: minimum-image distances and simulation summaries

    A shallow embedding of [src/mdgeom/distances.py] and
    [src/mdgeom/info.py].

    Both modules are glue around external libraries (numpy, MDAnalysis,
    prettytable).  The Python code is translated function by function into a
    state-and-exception monad over an explicit [World]:

    - the attribute values of every [AtomGroup] and [Universe] object (Python
      objects are mutable, so what a handle denotes is part of the state);
    - the heap of [dict] objects allocated by [extract];
    - the tables printed to standard output;
    - the log of calls into the numerical libraries.

    The numerical routines themselves are not part of the repository; they
    are the fields of the class [External], and every property below holds
    for every implementation of that class. *)

From Stdlib Require Import ZArith Floats.
From stdpp Require Import gmap strings list fin_maps pretty.

Open Scope Z_scope.

(** ** Exceptions and the monad *)

(** The text carried by an exception.  The one formatted message of the
    repository (the f-string of [summary]) keeps its two arguments. *)
Inductive message : Type :=
| Msg (s : string)
| MsgLabels (labels : option (list (option string))) (universes : list positive)
| MsgRowWidth (actual expected : nat).

Inductive exn : Type :=
| ValueError (msg : message)
| TypeError (msg : message)
| KeyError (key : string).

Inductive outcome (A : Type) : Type :=
| Return (a : A)
| Raise (e : exn).
Arguments Return {A} a.
Arguments Raise {A} e.

(** A computation runs in a world and leaves a world behind, also when it
    raises: effects performed before the [raise] persist. *)
Definition M (W A : Type) : Type := W → outcome A * W.

#[global] Instance M_ret {W} : MRet (M W) := λ A a w, (Return a, w).

#[global] Instance M_bind {W} : MBind (M W) := λ A B k m w,
  match m w with
  | (Return a, w') => k a w'
  | (Raise e, w') => (Raise e, w')
  end.

Definition raise {W A} (e : exn) : M W A := λ w, (Raise e, w).
Definition gets {W A} (f : W → A) : M W A := λ w, (Return (f w), w).
Definition modify {W} (f : W → W) : M W unit := λ w, (Return tt, f w).

(** [try: body; except TypeError: handler] *)
Definition try_except_TypeError {W A} (body handler : M W A) : M W A := λ w,
  match body w with
  | (Raise (TypeError _), w') => handler w'
  | r => r
  end.

Definition returned {A} (r : outcome A) : Prop := ∃ a, r = Return a.

(** ** The external libraries *)

(** A unit cell: three edge lengths and three angles in degrees. *)
Record Box (float : Type) : Type := mkBox {
  box_Lx : float; box_Ly : float; box_Lz : float;
  box_alpha : float; box_beta : float; box_gamma : float }.
Arguments mkBox {float} _ _ _ _ _ _.
Arguments box_Lx {float} _.
Arguments box_Ly {float} _.
Arguments box_Lz {float} _.
Arguments box_alpha {float} _.
Arguments box_beta {float} _.
Arguments box_gamma {float} _.

Definition Vec3 (float : Type) : Type := (float * float * float)%type.

Section Model.

(** The routines of numpy and MDAnalysis that the repository calls.  One
    scalar type stands for numpy's [float32] (positions, unit cell) and for
    Python's [float] (times, distances): no operation of the repository
    depends on the precision.  The routines are total: the shapes on which
    the libraries raise (a cell that has not six entries, coordinate arrays
    of different lengths handed to [calc_bonds]) are excluded by the types
    or by the validation that precedes the call. *)
Class External : Type := {
  float : Type;
  (* Python / numpy arithmetic *)
  fsub : float → float → float;
  fdiv : float → float → float;
  float_of_int : Z → float;
  int_truediv : Z → Z → float;
  (* numpy.allclose on two arrays of shape (6,) *)
  allclose : Box float → Box float → bool;
  (* MDAnalysis.lib.distances *)
  calc_bonds : list (Vec3 float) → list (Vec3 float) → option (Box float) → list float;
  minimize_vectors : list (Vec3 float) → Box float → list (Vec3 float) }.

Context `{External}.

(** ** Objects of the simulation engine *)

(** An [AtomGroup]: [N] positions and the unit cell of the current frame
    ([None] when the trajectory has none).  [n_atoms] is the number of
    positions. *)
Record AtomGroup : Type := mkAtomGroup {
  ag_positions : list (Vec3 float);
  ag_dimensions : option (Box float) }.

Definition ag_n_atoms (g : AtomGroup) : Z := Z.of_nat (length (ag_positions g)).

Record Reader : Type := mkReader {
  rd_n_frames : Z;
  rd_totaltime : float;
  rd_dt : float }.

(** A [Universe]: [u.dimensions], [u.atoms] and [u.trajectory]. *)
Record Universe : Type := mkUniverse {
  u_dimensions : option (Box float);
  u_atoms : AtomGroup;
  u_trajectory : Reader }.

(** Values stored in the dictionaries of [extract] and in table cells. *)
Inductive pyval : Type :=
| PyInt (z : Z)
| PyFloat (x : float)
| PyStr (s : string).

(** A [prettytable.PrettyTable]: its header and its rows. *)
Record PrettyTable : Type := mkTable {
  field_names : list string;
  rows : list (list pyval) }.

(** Calls into the numerical libraries, in the order they are made. *)
Inductive libcall : Type :=
| Call_allclose (x y : Box float)
| Call_subtract (x y : list (Vec3 float))
| Call_calc_bonds (x y : list (Vec3 float)) (box : option (Box float))
| Call_minimize_vectors (v : list (Vec3 float)) (box : Box float).

(** ** The world *)

Record World : Type := mkWorld {
  groups : positive → AtomGroup;              (* AtomGroup objects, by identity *)
  universes : positive → Universe;            (* Universe objects, by identity *)
  heap : list (gmap string pyval);            (* dict objects, by address *)
  stdout : list PrettyTable;                  (* what print() has written *)
  calls : list libcall }.                     (* library calls made so far *)

Definition log_call (c : libcall) : M World unit :=
  modify (λ w, mkWorld (groups w) (universes w) (heap w) (stdout w) (calls w ++ [c])).

(** [print(table)] *)
Definition print (t : PrettyTable) : M World unit :=
  modify (λ w, mkWorld (groups w) (universes w) (heap w) (stdout w ++ [t]) (calls w)).

(** A dict display [{...}]: a new object at a fresh address. *)
Definition new_dict (d : gmap string pyval) : M World nat := λ w,
  (Return (length (heap w)),
   mkWorld (groups w) (universes w) (heap w ++ [d]) (stdout w) (calls w)).

(** [data[key]] *)
Definition dict_getitem (data : nat) (key : string) : M World pyval := λ w,
  match heap w !! data ≫= (.!! key) with
  | Some v => (Return v, w)
  | None => (Raise (KeyError key), w)
  end.

(** [data[key] = v]: the object at address [data] is updated in place
    (every address the code holds comes from [new_dict]). *)
Definition dict_setitem (data : nat) (key : string) (v : pyval) : M World unit :=
  modify (λ w, mkWorld (groups w) (universes w)
                       (alter (<[key := v]>) data (heap w)) (stdout w) (calls w)).

(** Attribute reads. *)
Definition n_atoms (a : positive) : M World Z := gets (λ w, ag_n_atoms (groups w a)).
Definition positions (a : positive) : M World (list (Vec3 float)) :=
  gets (λ w, ag_positions (groups w a)).
Definition dimensions (a : positive) : M World (option (Box float)) :=
  gets (λ w, ag_dimensions (groups w a)).

(** ** numpy and MDAnalysis calls *)

Definition vsub (p q : Vec3 float) : Vec3 float :=
  let '(px, py, pz) := p in
  let '(qx, qy, qz) := q in
  (fsub px qx, fsub py qy, fsub pz qz).

(** [x - y] on arrays of shapes [(n, 3)] and [(m, 3)]: element-wise, with
    numpy's broadcasting of a single row, and a [ValueError] otherwise. *)
Definition np_subtract (x y : list (Vec3 float)) : M World (list (Vec3 float)) :=
  log_call (Call_subtract x y);;
  if decide (length x = length y) then mret (zip_with vsub x y)
  else match x, y with
       | [p], _ => mret ((λ q, vsub p q) <$> y)
       | _, [q] => mret ((λ p, vsub p q) <$> x)
       | _, _ => raise (ValueError (Msg "operands could not be broadcast together"))
       end.

Definition np_allclose (x y : Box float) : M World bool :=
  log_call (Call_allclose x y);; mret (allclose x y).

Definition lib_calc_bonds (x y : list (Vec3 float)) (box : option (Box float))
  : M World (list float) :=
  log_call (Call_calc_bonds x y box);; mret (calc_bonds x y box).

Definition lib_minimize_vectors (v : list (Vec3 float)) (box : Box float)
  : M World (list (Vec3 float)) :=
  log_call (Call_minimize_vectors v box);; mret (minimize_vectors v box).

(** ** distances.py *)

Definition _check_groups (a b : positive) : M World unit :=
  na ← n_atoms a;
  nb ← n_atoms b;
  if bool_decide (na ≠ nb) then
    raise (ValueError (Msg "AtomGroups a and b contain different number of atoms"))
  else
    da ← dimensions a;
    db ← dimensions b;
    match da, db with
    | None, None =>
        (* it's ok when both AtomGroups have no unitcell *)
        mret tt
    | None, Some _ | Some _, None =>
        raise (ValueError (Msg "One AtomGroup does not have unit cell information"))
    | Some xa, Some xb =>
        close ← np_allclose xa xb;
        if negb close then
          raise (ValueError (Msg "Unit cell dimensions differ between groups."))
        else mret tt
    end.

Definition minimage_distance (a b : positive) : M World (list float) :=
  _check_groups a b;;
  pa ← positions a;
  pb ← positions b;
  box ← dimensions a;
  d ← lib_calc_bonds pa pb box;
  mret d.

Definition minimage_difference_vector (a b : positive) : M World (list (Vec3 float)) :=
  (* ensure that a.dimensions and b.dimensions are the same *)
  _check_groups a b;;
  pa ← positions a;
  pb ← positions b;
  diff_vec ← np_subtract pa pb;
  box ← dimensions a;
  match box with
  | Some bx =>
      (* need minimum image *)
      lib_minimize_vectors diff_vec bx
  | None =>
      (* no box information, so the difference vector is sufficient *)
      mret diff_vec
  end.

(** ** prettytable *)

(** [table.field_names = val]: the new header must be as wide as the old
    one and as the rows, when there are any, and its names must be unique. *)
Definition set_field_names (t : PrettyTable) (val : list string) : M World PrettyTable :=
  if bool_decide (field_names t ≠ []) && bool_decide (length val ≠ length (field_names t))
  then raise (ValueError (Msg "Field name list has incorrect number of values"))
  else
    match rows t with
    | row :: _ =>
        if bool_decide (length val ≠ length row)
        then raise (ValueError (Msg "Field name list has incorrect number of values"))
        else if decide (NoDup val) then mret (mkTable val (rows t))
        else raise (ValueError (Msg "Field names must be unique"))
    | [] =>
        if decide (NoDup val) then mret (mkTable val (rows t))
        else raise (ValueError (Msg "Field names must be unique"))
    end.

(** [table.add_row(row)]: a row whose width is not the header's is refused;
    a table without header gets the names "Field 1", "Field 2", ... *)
Definition add_row (t : PrettyTable) (row : list pyval) : M World PrettyTable :=
  if bool_decide (field_names t ≠ []) && bool_decide (length row ≠ length (field_names t))
  then raise (ValueError (MsgRowWidth (length row) (length (field_names t))))
  else
    let names :=
      match field_names t with
      | [] => (λ n, "Field " +:+ pretty (S n)) <$> seq 0 (length row)
      | names => names
      end in
    mret (mkTable names (rows t ++ [row])).

(** ** info.py *)

Definition data_column_keys : list string :=
  ["n_atoms"; "Lx"; "Ly"; "Lz"; "alpha"; "beta"; "gamma"; "n_frames"; "totaltime"; "dt"].

Definition data_column_names : list string :=
  ["n_atoms"; "Lx/Å"; "Ly/Å"; "Lz/Å"; "alpha"; "beta"; "gamma"; "n_frames";
   "totaltime/ns"; "dt/ps"].

(** [Lx, Ly, Lz, alpha, beta, gamma = u.dimensions] *)
Definition unpack_dimensions (d : option (Box float))
  : M World (pyval * pyval * pyval * pyval * pyval * pyval) :=
  match d with
  | None => raise (TypeError (Msg "cannot unpack non-iterable NoneType object"))
  | Some b =>
      mret (PyFloat (box_Lx b), PyFloat (box_Ly b), PyFloat (box_Lz b),
            PyFloat (box_alpha b), PyFloat (box_beta b), PyFloat (box_gamma b))
  end.

Definition extract (u : positive) : M World nat :=
  '(Lx, Ly, Lz, alpha, beta, gamma) ←
    try_except_TypeError
      (d ← gets (λ w, u_dimensions (universes w u));
       unpack_dimensions d)
      (* universe without a regular box *)
      (mret (PyInt 0, PyInt 0, PyInt 0, PyInt 0, PyInt 0, PyInt 0));
  n_atoms ← gets (λ w, ag_n_atoms (u_atoms (universes w u)));
  n_frames ← gets (λ w, rd_n_frames (u_trajectory (universes w u)));
  totaltime ← gets (λ w, rd_totaltime (u_trajectory (universes w u)));
  dt ← gets (λ w, rd_dt (u_trajectory (universes w u)));
  data ← new_dict (list_to_map [
    ("n_atoms", PyInt n_atoms);
    ("Lx", Lx);
    ("Ly", Ly);
    ("Lz", Lz);
    ("alpha", alpha);
    ("beta", beta);
    ("gamma", gamma);
    ("n_frames", PyInt n_frames);
    ("totaltime", PyFloat totaltime);
    ("dt", PyFloat dt)]);
  mret data.

(** [len(x)] for an argument that may be [None]. *)
Definition py_len {A} (x : option (list A)) : M World nat :=
  match x with
  | None => raise (TypeError (Msg "object of type 'NoneType' has no len()"))
  | Some l => mret (length l)
  end.

(** [v / d] for an [int] divisor (true division). *)
Definition py_truediv (v : pyval) (d : Z) : M World pyval :=
  match v with
  | PyInt z => mret (PyFloat (int_truediv z d))
  | PyFloat x => mret (PyFloat (fdiv x (float_of_int d)))
  | PyStr _ => raise (TypeError (Msg "unsupported operand type(s) for /=: 'str' and 'int'"))
  end.

(** The body of the [for u, label in zip(universes, labels)] loop. *)
Definition summary_row (table : PrettyTable) (ul : positive * option string)
  : M World PrettyTable :=
  let '(u, label) := ul in
  data ← extract u;
  (* data["totaltime"] /= 1000: convert ps to ns *)
  t ← dict_getitem data "totaltime";
  t' ← py_truediv t 1000;
  dict_setitem data "totaltime" t';;
  row ← mapM (dict_getitem data) data_column_keys;
  let row := match label with
             | Some l => PyStr l :: row
             | None => row
             end in
  add_row table row.

Fixpoint for_each {A S} (body : S → A → M World S) (s : S) (l : list A) : M World S :=
  match l with
  | [] => mret s
  | x :: l' => s' ← body s x; for_each body s' l'
  end.

Definition summary (universes : list positive) (labels : option (list (option string)))
  : M World unit :=
  n ← py_len labels;
  if bool_decide (n ≠ length universes) then
    raise (ValueError (MsgLabels labels universes))
  else
    let '(labels, column_names) :=
      match labels with
      | None => (replicate (length universes) None, data_column_names)
      | Some labels => (labels, "simulation" :: data_column_names)
      end in
    table ← set_field_names (mkTable [] []) column_names;
    table ← for_each summary_row table (zip universes labels);
    print table.

End Model.

(** ** A binary64 engine

    An implementation of [External] on IEEE binary64 numbers, used to run
    the embedding on concrete inputs.  [allclose] is numpy's formula with the
    default tolerances; the two geometry routines follow section 4.1 of the
    specification (search over the 27 neighbouring periodic images).

    The engine works in binary64 throughout.  numpy and MDAnalysis keep
    positions and unit cells in [float32], so their results can differ from
    the engine's in the last digits of a [float32], at ties between images
    and for atoms more than one cell apart; the true division of two
    integers is the correctly rounded quotient only for operands below
    2^53.  The properties below are proved for every [External] and do not
    depend on this engine. *)
Module Binary64.

Import PrimFloat.
Local Open Scope float_scope.

(** [float(z)]: the binary64 number nearest to [z] (ties to even).  Python
    raises [OverflowError] where this gives an infinity. *)
Definition of_int (z : Z) : PrimFloat.float :=
  SF2Prim (binary_normalize prec emax z 0 false).

Definition rtol : PrimFloat.float := 0x1.4f8b588e368f1p-17.   (* 1e-05 *)
Definition atol : PrimFloat.float := 0x1.5798ee2308c3ap-27.   (* 1e-08 *)

(** [numpy.isclose(x, y)] with [equal_nan=False]. *)
Definition isclose (x y : PrimFloat.float) : bool :=
  (abs (x - y) <=? atol + rtol * abs y) && is_finite y || (x =? y).

Definition box_values (b : Box PrimFloat.float) : list PrimFloat.float :=
  [box_Lx b; box_Ly b; box_Lz b; box_alpha b; box_beta b; box_gamma b].

Definition allclose (x y : Box PrimFloat.float) : bool :=
  forallb (λ xy, isclose xy.1 xy.2) (zip (box_values x) (box_values y)).

Definition vadd (p q : Vec3 PrimFloat.float) : Vec3 PrimFloat.float :=
  let '(px, py, pz) := p in let '(qx, qy, qz) := q in (px + qx, py + qy, pz + qz).
Definition vdiff (p q : Vec3 PrimFloat.float) : Vec3 PrimFloat.float :=
  let '(px, py, pz) := p in let '(qx, qy, qz) := q in (px - qx, py - qy, pz - qz).
Definition vscale (k : PrimFloat.float) (p : Vec3 PrimFloat.float) : Vec3 PrimFloat.float :=
  let '(px, py, pz) := p in (k * px, k * py, k * pz).
Definition norm2 (p : Vec3 PrimFloat.float) : PrimFloat.float :=
  let '(px, py, pz) := p in px * px + py * py + pz * pz.

(** Cosine of an angle in degrees (Taylor polynomial in Horner form; exact
    zero at 90). *)
Fixpoint cos_series (n : nat) (k r2 : PrimFloat.float) : PrimFloat.float :=
  match n with
  | O => 1
  | S n' => 1 - r2 / ((k + 1) * (k + 2)) * cos_series n' (k + 2) r2
  end.

Definition cos_deg (a : PrimFloat.float) : PrimFloat.float :=
  if a =? 90 then 0
  else
    let r := a * 0x1.1df46a2529d39p-6 in   (* pi / 180 *)
    cos_series 14 0 (r * r).

(** The three cell vectors of a unit cell given by lengths and angles. *)
Definition triclinic_vectors (b : Box PrimFloat.float)
  : Vec3 PrimFloat.float * Vec3 PrimFloat.float * Vec3 PrimFloat.float :=
  let ca := cos_deg (box_alpha b) in
  let cb := cos_deg (box_beta b) in
  let cg := cos_deg (box_gamma b) in
  let sg := sqrt (1 - cg * cg) in
  let cx := box_Lz b * cb in
  let cy := box_Lz b * (ca - cb * cg) / sg in
  ((box_Lx b, 0, 0),
   (box_Ly b * cg, box_Ly b * sg, 0),
   (cx, cy, sqrt (box_Lz b * box_Lz b - cx * cx - cy * cy))).

Definition images (b : Box PrimFloat.float) (v : Vec3 PrimFloat.float)
  : list (Vec3 PrimFloat.float) :=
  let '(va, vb, vc) := triclinic_vectors b in
  i ← [-1; 0; 1]; j ← [-1; 0; 1]; k ← [-1; 0; 1];
  [vadd v (vadd (vscale i va) (vadd (vscale j vb) (vscale k vc)))].

Definition minimum_image (b : Box PrimFloat.float) (v : Vec3 PrimFloat.float)
  : Vec3 PrimFloat.float :=
  fold_left (λ best c, if norm2 c <? norm2 best then c else best) (images b v) v.

Definition minimize_vectors (v : list (Vec3 PrimFloat.float)) (b : Box PrimFloat.float)
  : list (Vec3 PrimFloat.float) :=
  minimum_image b <$> v.

Definition calc_bonds (x y : list (Vec3 PrimFloat.float)) (box : option (Box PrimFloat.float))
  : list PrimFloat.float :=
  zip_with (λ p q, sqrt (norm2 (from_option (λ b, minimum_image b (vdiff p q))
                                            (vdiff p q) box))) x y.

Definition engine : External :=
  Build_External PrimFloat.float PrimFloat.sub PrimFloat.div of_int
    (λ z d, of_int z / of_int d) allclose calc_bonds minimize_vectors.

End Binary64.

(** ** Fixtures *)

Module Fixtures.

Set Warnings "-inexact-float".

Import PrimFloat.
Local Open Scope float_scope.
#[local] Existing Instance Binary64.engine.

Definition cell : Box PrimFloat.float := mkBox 80 80 80 60 60 90.
(** The same cell after a relative perturbation of 1e-7 of every entry. *)
Definition cell_noise : Box PrimFloat.float :=
  mkBox 80.000008 80.000008 80.000008 60.000006 60.000006 90.000009.
Definition cell_other : Box PrimFloat.float := mkBox 80 80 81 60 60 90.

Definition pts_a : list (Vec3 PrimFloat.float) := [(1, 2, 3); (70, 5, 5); (0, 0, 0)].
Definition pts_b : list (Vec3 PrimFloat.float) := [(4, 6, 3); (5, 5, 5); (1, 1, 1)].

Definition group (n : positive) : AtomGroup :=
  match n with
  | 1%positive => mkAtomGroup pts_a None                   (* no unit cell *)
  | 2%positive => mkAtomGroup pts_b None
  | 3%positive => mkAtomGroup pts_a (Some cell)            (* periodic *)
  | 4%positive => mkAtomGroup pts_b (Some cell)
  | 5%positive => mkAtomGroup pts_b (Some cell_noise)
  | 6%positive => mkAtomGroup pts_b (Some cell_other)
  | _ => mkAtomGroup [(0, 0, 0)] None             (* one atom *)
  end.

(** The universes of [tests/test_info.py], by their reference data. *)
Definition universe (n : positive) : Universe :=
  match n with
  | 1%positive => mkUniverse (Some (mkBox 80.017006 80.017006 80.017006 60 60 90))
           (mkAtomGroup (replicate 47681 (0, 0, 0)) None)
           (mkReader 10 900.0000686645508 100.00000762939453)
  | 2%positive => mkUniverse None
           (mkAtomGroup (replicate 3341 (0, 0, 0)) None)
           (mkReader 98 96.9999914562418 0.9999999119200186)
  | _ => mkUniverse (Some (mkBox 80.017 80.017 80.017 60 60 90))
           (mkAtomGroup (replicate 47681 (0, 0, 0)) None)
           (mkReader 1 0 1)
  end.

Definition world0 : World := mkWorld group universe [] [] [].

End Fixtures.


(** * Properties *)

Section Properties.

Context `{External}.

Implicit Types (w : World) (a b u : positive).

(** Unfolding of the monad's primitives. *)
Ltac run :=
  unfold n_atoms, positions, dimensions, np_subtract, np_allclose, lib_calc_bonds,
    lib_minimize_vectors, log_call, print, py_len, raise, gets, modify,
    mbind, M_bind, mret, M_ret; simpl.

(** ** Validation of the two groups *)

Definition size_mismatch : exn :=
  ValueError (Msg "AtomGroups a and b contain different number of atoms").
Definition box_missing : exn :=
  ValueError (Msg "One AtomGroup does not have unit cell information").
Definition box_differs : exn :=
  ValueError (Msg "Unit cell dimensions differ between groups.").

(** The world after one more library call. *)
Definition logged (w : World) (c : list libcall) : World :=
  mkWorld (groups w) (universes w) (heap w) (stdout w) (calls w ++ c).

Lemma logged_nil w : logged w [] = w.
Proof. destruct w; unfold logged; simpl. by rewrite app_nil_r. Qed.

(** What [_check_groups] does, case by case. *)
Lemma check_groups_cases w a b :
  _check_groups a b w =
  if bool_decide (ag_n_atoms (groups w a) ≠ ag_n_atoms (groups w b)) then
    (Raise size_mismatch, w)
  else
    match ag_dimensions (groups w a), ag_dimensions (groups w b) with
    | None, None => (Return tt, w)
    | Some xa, Some xb =>
        (if allclose xa xb then Return tt else Raise box_differs,
         logged w [Call_allclose xa xb])
    | _, _ => (Raise box_missing, w)
    end.
Proof.
  unfold _check_groups. run.
  case_bool_decide; [done|].
  destruct (ag_dimensions (groups w a)), (ag_dimensions (groups w b)); try done.
  by destruct (allclose _ _).
Qed.

Lemma check_groups_size_mismatch w a b :
  ag_n_atoms (groups w a) ≠ ag_n_atoms (groups w b) →
  _check_groups a b w = (Raise size_mismatch, w).
Proof. intros Hne. rewrite check_groups_cases. by rewrite bool_decide_eq_true_2. Qed.

Lemma bind_raise {A B} (m : M World A) (k : A → M World B) w e w' :
  m w = (Raise e, w') → (m ≫= k) w = (Raise e, w').
Proof. intros Hm. unfold mbind, M_bind. by rewrite Hm. Qed.

Lemma bind_return {A B} (m : M World A) (k : A → M World B) w x w' :
  m w = (Return x, w') → (m ≫= k) w = k x w'.
Proof. intros Hm. unfold mbind, M_bind. by rewrite Hm. Qed.

(** Claim C3: when the two groups have different atom counts, both
    [minimage_distance] and [minimage_difference_vector] raise the
    size-mismatch [ValueError]; no value is returned, and the world is the
    one they started in: no library call was logged (no numeric work) and
    the groups are unchanged. *)
Theorem size_mismatch_raises w a b :
  ag_n_atoms (groups w a) ≠ ag_n_atoms (groups w b) →
  minimage_distance a b w = (Raise size_mismatch, w) ∧
  minimage_difference_vector a b w = (Raise size_mismatch, w).
Proof.
  intros Hne. split.
  - unfold minimage_distance. apply bind_raise. by apply check_groups_size_mismatch.
  - unfold minimage_difference_vector. apply bind_raise.
    by apply check_groups_size_mismatch.
Qed.

(** ** The difference vector without a unit cell *)

Lemma equal_sizes w a b :
  ag_n_atoms (groups w a) = ag_n_atoms (groups w b) →
  length (ag_positions (groups w a)) = length (ag_positions (groups w b)).
Proof. unfold ag_n_atoms. lia. Qed.

Lemma np_subtract_equal_length (x y : list (Vec3 float)) w :
  length x = length y →
  np_subtract x y w = (Return (zip_with vsub x y), logged w [Call_subtract x y]).
Proof. intros Hlen. run. by rewrite decide_True. Qed.

(** Claim C2: for two groups of equal size, neither of which has a unit
    cell, [minimage_difference_vector] returns the element-wise difference
    [a.positions - b.positions]; the only library call is that subtraction,
    so no periodic correction is applied or attempted. *)
Theorem no_box_raw_difference w a b :
  ag_n_atoms (groups w a) = ag_n_atoms (groups w b) →
  ag_dimensions (groups w a) = None →
  ag_dimensions (groups w b) = None →
  minimage_difference_vector a b w =
    (Return (zip_with vsub (ag_positions (groups w a)) (ag_positions (groups w b))),
     logged w [Call_subtract (ag_positions (groups w a)) (ag_positions (groups w b))]).
Proof.
  intros Hn Ha Hb. unfold minimage_difference_vector.
  erewrite bind_return; last first.
  { rewrite check_groups_cases, bool_decide_eq_false_2 by (by intros []).
    by rewrite Ha, Hb. }
  unfold positions at 1 2. unfold gets, mbind at 1 2, M_bind. simpl.
  erewrite bind_return; last by apply np_subtract_equal_length, equal_sizes.
  unfold dimensions, gets, mbind, M_bind. simpl. by rewrite Ha.
Qed.

(** ** Validation of the unit cells *)

(** The two configuration errors of [_check_groups]. *)
Definition configuration_error (e : exn) : Prop := e = box_missing ∨ e = box_differs.

(** Exactly one of the two groups has a unit cell. *)
Definition exactly_one_box (da db : option (Box float)) : Prop :=
  (is_Some da ∧ db = None) ∨ (da = None ∧ is_Some db).

(** Both groups have a unit cell, and [numpy.allclose] tells them apart. *)
Definition boxes_differ (da db : option (Box float)) : Prop :=
  ∃ xa xb, da = Some xa ∧ db = Some xb ∧ allclose xa xb = false.

(** Both groups have a unit cell, equal up to [numpy.allclose]'s tolerance. *)
Definition boxes_agree (da db : option (Box float)) : Prop :=
  ∃ xa xb, da = Some xa ∧ db = Some xb ∧ allclose xa xb = true.

Lemma check_groups_rejects w a b :
  ag_n_atoms (groups w a) = ag_n_atoms (groups w b) →
  exactly_one_box (ag_dimensions (groups w a)) (ag_dimensions (groups w b)) ∨
  boxes_differ (ag_dimensions (groups w a)) (ag_dimensions (groups w b)) →
  ∃ e w', configuration_error e ∧ _check_groups a b w = (Raise e, w').
Proof.
  intros Hn Hbox. rewrite check_groups_cases, bool_decide_eq_false_2 by (by intros []).
  destruct Hbox as [[[[xa ->] ->]|[-> [xb ->]]]|(xa & xb & -> & -> & ->)].
  - exists box_missing, w. split; [by left|done].
  - exists box_missing, w. split; [by left|done].
  - eexists box_differs, _. split; [by right|done].
Qed.

Lemma check_groups_accepts w a b :
  ag_n_atoms (groups w a) = ag_n_atoms (groups w b) →
  (ag_dimensions (groups w a) = None ∧ ag_dimensions (groups w b) = None) ∨
  boxes_agree (ag_dimensions (groups w a)) (ag_dimensions (groups w b)) →
  ∃ c, _check_groups a b w = (Return tt, logged w c).
Proof.
  intros Hn Hbox. rewrite check_groups_cases, bool_decide_eq_false_2 by (by intros []).
  destruct Hbox as [[-> ->]|(xa & xb & -> & -> & ->)].
  - exists []. by rewrite logged_nil.
  - by eexists [_].
Qed.

(** Claim C4: for two groups of equal size, if exactly one has a unit cell,
    or both have one and the cells differ beyond [numpy.allclose]'s combined
    absolute and relative tolerance, both operations raise a configuration
    error; if neither has one, or both have one and the cells agree within
    that tolerance, neither operation raises. *)
Theorem box_validation w a b :
  ag_n_atoms (groups w a) = ag_n_atoms (groups w b) →
  (exactly_one_box (ag_dimensions (groups w a)) (ag_dimensions (groups w b)) ∨
   boxes_differ (ag_dimensions (groups w a)) (ag_dimensions (groups w b)) →
   ∃ e, configuration_error e ∧
        (minimage_distance a b w).1 = Raise e ∧
        (minimage_difference_vector a b w).1 = Raise e) ∧
  ((ag_dimensions (groups w a) = None ∧ ag_dimensions (groups w b) = None) ∨
   boxes_agree (ag_dimensions (groups w a)) (ag_dimensions (groups w b)) →
   returned (minimage_distance a b w).1 ∧
   returned (minimage_difference_vector a b w).1).
Proof.
  intros Hn. split; intros Hbox.
  - destruct (check_groups_rejects w a b Hn Hbox) as (e & w' & He & Hchk).
    exists e. split; [done|].
    unfold minimage_distance, minimage_difference_vector.
    by rewrite !(bind_raise _ _ _ _ _ Hchk).
  - destruct (check_groups_accepts w a b Hn Hbox) as (c & Hchk).
    unfold minimage_distance, minimage_difference_vector.
    rewrite !(bind_return _ _ _ _ _ Hchk). split.
    + run. by eexists.
    + unfold positions at 1 2. unfold gets, mbind at 1 2, M_bind. simpl.
      erewrite bind_return; last by apply np_subtract_equal_length, equal_sizes.
      run. destruct (ag_dimensions (groups w a)); by eexists.
Qed.

(** ** Extraction of the metadata *)

(** The world after the allocation of the dictionaries [ds]. *)
Definition allocated (w : World) (ds : list (gmap string pyval)) : World :=
  mkWorld (groups w) (universes w) (heap w ++ ds) (stdout w) (calls w).

(** The world after printing the tables [ts]. *)
Definition printed (w : World) (ts : list PrettyTable) : World :=
  mkWorld (groups w) (universes w) (heap w) (stdout w ++ ts) (calls w).

(** The six unit-cell entries: the cell's values, or six zeros. *)
Definition box_cells (d : option (Box float)) : list pyval :=
  match d with
  | None => replicate 6 (PyInt 0)
  | Some b => PyFloat <$> [box_Lx b; box_Ly b; box_Lz b; box_alpha b; box_beta b; box_gamma b]
  end.

(** The ten values read from a universe, in the order of [data_column_keys];
    [time] is applied to the total time. *)
Definition data_values (time : float → float) (U : Universe) : list pyval :=
  PyInt (ag_n_atoms (u_atoms U)) :: box_cells (u_dimensions U) ++
  [PyInt (rd_n_frames (u_trajectory U));
   PyFloat (time (rd_totaltime (u_trajectory U)));
   PyFloat (rd_dt (u_trajectory U))].

Definition extracted (U : Universe) : gmap string pyval :=
  list_to_map (zip data_column_keys (data_values id U)).

Lemma data_values_length time (U : Universe) : length (data_values time U) = 10%nat.
Proof. unfold data_values, box_cells. by destruct (u_dimensions U). Qed.

Lemma allocated_nil w : allocated w [] = w.
Proof. destruct w; unfold allocated; simpl. by rewrite app_nil_r. Qed.

Lemma allocated_app w ds ds' : allocated (allocated w ds) ds' = allocated w (ds ++ ds').
Proof. unfold allocated; simpl. by rewrite app_assoc. Qed.

Lemma extract_spec w u :
  extract u w = (Return (length (heap w)), allocated w [extracted (universes w u)]).
Proof.
  unfold extract, try_except_TypeError, unpack_dimensions, new_dict, extracted,
    data_values, box_cells.
  run. by destruct (u_dimensions (universes w u)).
Qed.

Lemma extracted_keys (U : Universe) :
  dom (extracted U) = list_to_set data_column_keys ∧ size (extracted U) = 10%nat.
Proof.
  assert (dom (extracted U) = list_to_set data_column_keys) as Hdom.
  { unfold extracted. rewrite dom_list_to_map_L, fst_zip; [done|].
    by rewrite data_values_length. }
  split; [done|].
  rewrite <-size_dom, Hdom, size_list_to_set; [done|].
  apply (bool_decide_unpack _). by vm_compute.
Qed.

Lemma extracted_lookup time (U : Universe) :
  (λ k, <["totaltime" := PyFloat (time (rd_totaltime (u_trajectory U)))]> (extracted U) !! k)
    <$> data_column_keys = Some <$> data_values time U.
Proof.
  unfold extracted, data_values, box_cells.
  destruct (u_dimensions U); vm_compute; done.
Qed.

(** Claim C5: for every universe, [extract] returns a new dictionary whose
    keys are exactly the ten keys [n_atoms], [Lx], [Ly], [Lz], [alpha],
    [beta], [gamma], [n_frames], [totaltime] and [dt]; it never raises, and
    the six unit-cell entries are the cell's values or, for a universe
    without a regular box, six zeros. *)
Theorem extract_ten_keys w u :
  ∃ d, extract u w = (Return (length (heap w)), allocated w [d]) ∧
       dom d = list_to_set ["n_atoms"; "Lx"; "Ly"; "Lz"; "alpha"; "beta"; "gamma";
                            "n_frames"; "totaltime"; "dt"] ∧
       size d = 10%nat ∧
       (λ k, d !! k) <$> ["Lx"; "Ly"; "Lz"; "alpha"; "beta"; "gamma"] =
         Some <$> match u_dimensions (universes w u) with
                  | None => [PyInt 0; PyInt 0; PyInt 0; PyInt 0; PyInt 0; PyInt 0]
                  | Some b => box_cells (Some b)
                  end.
Proof.
  exists (extracted (universes w u)). split; [apply extract_spec|].
  destruct (extracted_keys (universes w u)) as [Hdom Hsize].
  split; [done|]. split; [done|].
  unfold extracted, data_values, box_cells.
  destruct (u_dimensions (universes w u)); vm_compute; done.
Qed.

(** ** Validation of the labels *)

(** Claim C6: when the number of labels differs from the number of
    universes, [summary] raises a [ValueError] and leaves the world as it
    found it: no dictionary was allocated (no extraction took place) and
    nothing was written to standard output. *)
Theorem labels_mismatch_raises w (us : list positive) (labels : list (option string)) :
  length labels ≠ length us →
  summary us (Some labels) w = (Raise (ValueError (MsgLabels (Some labels) us)), w).
Proof. intros Hne. unfold summary. run. by rewrite bool_decide_eq_true_2. Qed.

(** Claim C7: a call of [summary] with [labels] unset raises a [TypeError]
    at [len(labels)], before the test [labels is None] is reached: the
    branch of that test which substitutes absent labels is never executed,
    and the world is left as it was found. *)
Theorem labels_default_unreachable w (us : list positive) :
  summary us None w = (Raise (TypeError (Msg "object of type 'NoneType' has no len()")), w).
Proof. unfold summary. apply bind_raise. unfold py_len, raise. reflexivity. Qed.

Lemma pair_of_fst {A B} (p : A * B) (x : A) : p.1 = x → p = (x, p.2).
Proof. intros <-. by destruct p. Qed.

(** ** One row of the table *)

(** Picoseconds to nanoseconds, as [summary] computes it. *)
Definition ps_to_ns (t : float) : float := fdiv t (float_of_int 1000).

(** The dictionary of [extract] after [data["totaltime"] /= 1000]. *)
Definition converted (U : Universe) : gmap string pyval :=
  <["totaltime" := PyFloat (ps_to_ns (rd_totaltime (u_trajectory U)))]> (extracted U).

(** The cells of a row: the label, when there is one, then the ten values. *)
Definition row_cells (label : option string) (U : Universe) : list pyval :=
  match label with
  | Some l => PyStr l :: data_values ps_to_ns U
  | None => data_values ps_to_ns U
  end.

Lemma extracted_totaltime (U : Universe) :
  extracted U !! "totaltime" = Some (PyFloat (rd_totaltime (u_trajectory U))).
Proof.
  unfold extracted, data_values, box_cells.
  destruct (u_dimensions U); vm_compute; done.
Qed.

Lemma mapM_dict_getitem (data : nat) (d : gmap string pyval) w :
  heap w !! data = Some d →
  ∀ (keys : list string) (vs : list pyval),
    (λ k, d !! k) <$> keys = Some <$> vs →
    mapM (dict_getitem data) keys w = (Return vs, w).
Proof.
  intros Hd keys. induction keys as [|k keys IH]; intros [|v vs] Hvs; try done.
  injection Hvs as Hk Hvs. simpl.
  erewrite bind_return; last first.
  { unfold dict_getitem. rewrite Hd. simpl. by rewrite Hk. }
  erewrite bind_return; last by apply IH.
  done.
Qed.

Lemma add_row_world (t : PrettyTable) (row : list pyval) w : (add_row t row w).2 = w.
Proof. unfold add_row. by destruct (_ && _). Qed.

Lemma add_row_fits (t : PrettyTable) (row : list pyval) w :
  field_names t ≠ [] → length row = length (field_names t) →
  add_row t row w = (Return (mkTable (field_names t) (rows t ++ [row])), w).
Proof.
  intros Hnames Hlen. unfold add_row.
  rewrite (bool_decide_eq_false_2 (length row ≠ _)) by (by intros []).
  rewrite andb_false_r. by destruct (field_names t).
Qed.

Lemma add_row_refused (t : PrettyTable) (row : list pyval) w :
  field_names t ≠ [] → length row ≠ length (field_names t) →
  add_row t row w = (Raise (ValueError (MsgRowWidth (length row) (length (field_names t)))), w).
Proof. intros Hnames Hlen. unfold add_row. by rewrite !bool_decide_eq_true_2. Qed.

(** The loop body: a new dictionary is allocated and converted, and the row
    read from it is handed to [add_row]. *)
Lemma summary_row_spec (t : PrettyTable) u (label : option string) w :
  summary_row t (u, label) w =
  add_row t (row_cells label (universes w u)) (allocated w [converted (universes w u)]).
Proof.
  unfold summary_row.
  erewrite bind_return; last by apply extract_spec.
  erewrite bind_return; last first.
  { unfold dict_getitem. simpl. rewrite list_lookup_middle by done. simpl.
    by rewrite extracted_totaltime. }
  erewrite bind_return; last done.
  erewrite bind_return; last first.
  { unfold dict_setitem, modify. simpl.
    rewrite alter_app_r_alt, Nat.sub_diag by done. done. }
  erewrite bind_return; last first.
  { eapply mapM_dict_getitem; [apply list_lookup_middle; done|].
    apply (extracted_lookup ps_to_ns). }
  by destruct label.
Qed.

(** ** The loop over the universes *)

(** A table whose header has the eleven columns of a labelled summary. *)
Definition labelled (t : PrettyTable) : Prop := length (field_names t) = 11%nat.

Lemma labelled_names (t : PrettyTable) : labelled t → field_names t ≠ [].
Proof. unfold labelled. by destruct (field_names t). Qed.

Lemma summary_row_labelled (t : PrettyTable) u (l : string) w :
  labelled t →
  summary_row t (u, Some l) w =
  (Return (mkTable (field_names t) (rows t ++ [row_cells (Some l) (universes w u)])),
   allocated w [converted (universes w u)]).
Proof.
  intros Ht. rewrite summary_row_spec. apply add_row_fits; [by apply labelled_names|].
  unfold row_cells. by rewrite length_cons, data_values_length, Ht.
Qed.

Lemma summary_row_unlabelled (t : PrettyTable) u w :
  labelled t →
  summary_row t (u, None) w =
  (Raise (ValueError (MsgRowWidth 10 11)), allocated w [converted (universes w u)]).
Proof.
  intros Ht. rewrite summary_row_spec.
  assert (length (row_cells None (universes w u)) = 10%nat) as Hrow
    by apply data_values_length.
  rewrite add_row_refused; [by rewrite Hrow, Ht|by apply labelled_names|].
  by rewrite Hrow, Ht.
Qed.

(** With a string label for every universe, the loop adds one row per
    universe, in order, and allocates one dictionary per universe. *)
Lemma for_each_labelled (us : list positive) :
  ∀ (names : list string) (t : PrettyTable) w,
    labelled t → length names = length us →
    for_each summary_row t (zip us (Some <$> names)) w =
    (Return (mkTable (field_names t)
               (rows t ++ zip_with (λ u l, row_cells (Some l) (universes w u)) us names)),
     allocated w ((λ u, converted (universes w u)) <$> us)).
Proof.
  induction us as [|u us IH]; intros [|l names] t w Ht Hlen; try done.
  - simpl. rewrite app_nil_r, allocated_nil. by destruct t.
  - simpl. erewrite bind_return; last by apply summary_row_labelled.
    rewrite IH; [|done|by injection Hlen].
    simpl. by rewrite <-app_assoc, allocated_app.
Qed.

(** A loop that runs to its end has met string labels only. *)
Lemma for_each_accepted (us : list positive) :
  ∀ (labels : list (option string)) (t t' : PrettyTable) w w',
    labelled t → length labels = length us →
    for_each summary_row t (zip us labels) w = (Return t', w') →
    ∃ names, labels = Some <$> names.
Proof.
  induction us as [|u us IH]; intros [|[l|] labels] t t' w w' Ht Hlen Hrun; try done.
  - by exists [].
  - simpl in Hrun. erewrite bind_return in Hrun; last by apply summary_row_labelled.
    apply IH in Hrun as [names ->]; [|done|by injection Hlen].
    by exists (l :: names).
  - simpl in Hrun. erewrite bind_raise in Hrun; last by apply summary_row_unlabelled.
    done.
Qed.

Lemma for_each_cons {A S} (body : S → A → M World S) (s : S) (x : A) (l : list A) :
  for_each body s (x :: l) = body s x ≫= λ s', for_each body s' l.
Proof. done. Qed.

(** Whatever the labels, the loop only allocates dictionaries. *)
Lemma for_each_frame (l : list (positive * option string)) :
  ∀ (t : PrettyTable) w, ∃ ds, (for_each summary_row t l w).2 = allocated w ds.
Proof.
  induction l as [|[u label] l IH]; intros t w.
  - exists []. by rewrite allocated_nil.
  - rewrite for_each_cons.
    pose proof (add_row_world t (row_cells label (universes w u))
                  (allocated w [converted (universes w u)])) as Hw.
    rewrite <-summary_row_spec in Hw.
    destruct (summary_row t (u, label) w) as [[t1|e] w1] eqn:Hrow;
      simpl in Hw; subst w1.
    + rewrite (bind_return _ _ _ _ _ Hrow).
      destruct (IH t1 (allocated w [converted (universes w u)])) as [ds Hds].
      exists (converted (universes w u) :: ds). by rewrite Hds, allocated_app.
    + rewrite (bind_raise _ _ _ _ _ Hrow). by eexists [_].
Qed.

Lemma data_column_names_unique : NoDup ("simulation" :: data_column_names).
Proof. apply (bool_decide_unpack _). by vm_compute. Qed.

Lemma set_field_names_fresh (val : list string) w :
  NoDup val → set_field_names (mkTable [] []) val w = (Return (mkTable val []), w).
Proof.
  intros Hval. unfold set_field_names. cbn [field_names rows].
  rewrite (bool_decide_eq_false_2 ([] ≠ [])) by (intros Hne; by apply Hne).
  cbn [andb]. by rewrite decide_True.
Qed.

(** ** The summary *)

(** The header of a summary with labels. *)
Definition summary_header : list string :=
  ["simulation"; "n_atoms"; "Lx/Å"; "Ly/Å"; "Lz/Å"; "alpha"; "beta"; "gamma";
   "n_frames"; "totaltime/ns"; "dt/ps"].

(** The table that [summary] prints for string labels. *)
Definition summary_table w (us : list positive) (names : list string) : PrettyTable :=
  mkTable summary_header (zip_with (λ u l, row_cells (Some l) (universes w u)) us names).

Lemma summary_labelled w (us : list positive) (names : list string) :
  length names = length us →
  summary us (Some (Some <$> names)) w =
  (Return tt,
   printed (allocated w ((λ u, converted (universes w u)) <$> us))
     [summary_table w us names]).
Proof.
  intros Hlen. unfold summary.
  erewrite bind_return; last done.
  rewrite bool_decide_eq_false_2 by (rewrite length_fmap; by intros []).
  erewrite bind_return; last by apply set_field_names_fresh, data_column_names_unique.
  erewrite bind_return; last by apply for_each_labelled.
  done.
Qed.

Lemma summary_table_rows w (us : list positive) (names : list string) :
  length names = length us → length (rows (summary_table w us names)) = length us.
Proof. intros Hlen. simpl. by rewrite length_zip_with_l_eq. Qed.

(** A summary that returns was given one string label per universe. *)
Lemma summary_accepted w (us : list positive) labels w' :
  summary us labels w = (Return tt, w') →
  ∃ names, labels = Some (Some <$> names) ∧ length names = length us.
Proof.
  destruct labels as [labels|]; [|done].
  unfold summary. rewrite (bind_return _ _ _ (length labels) w) by done.
  case_bool_decide as Hlen; [done|].
  erewrite bind_return; last by apply set_field_names_fresh, data_column_names_unique.
  destruct (for_each summary_row (mkTable ("simulation" :: data_column_names) [])
              (zip us labels) w) as [[t|e] w1] eqn:Hloop.
  - intros _. apply for_each_accepted in Hloop as [names ->]; [|done..].
    exists names. by rewrite length_fmap in Hlen.
  - by rewrite (bind_raise _ _ _ _ _ Hloop).
Qed.

(** Claim C8, as amended: for every list of universes and every list of
    string labels of the same length, [summary] returns and writes one
    table to standard output, with one row per universe. *)
Theorem summary_string_labels w (us : list positive) (names : list string) :
  length names = length us →
  ∃ ds, summary us (Some (Some <$> names)) w =
          (Return tt, printed (allocated w ds) [summary_table w us names]) ∧
        length (rows (summary_table w us names)) = length us.
Proof.
  intros Hlen. eexists. split; [by apply summary_labelled|].
  by apply summary_table_rows.
Qed.

(** Claim C9: when [summary] returns, every label was a string and the
    table printed has the header [simulation], [n_atoms], [Lx], [Ly], [Lz],
    [alpha], [beta], [gamma], [n_frames], [totaltime/ns], [dt/ps]; the row
    of a universe has its cells in that order, and its total time is the
    universe's total time divided by 1000. *)
Theorem summary_rows w (us : list positive) labels w' :
  summary us labels w = (Return tt, w') →
  ∃ names,
    labels = Some (Some <$> names) ∧ length names = length us ∧
    stdout w' = stdout w ++ [
      mkTable
        ["simulation"; "n_atoms"; "Lx/Å"; "Ly/Å"; "Lz/Å"; "alpha"; "beta"; "gamma";
         "n_frames"; "totaltime/ns"; "dt/ps"]
        (zip_with
           (λ u l,
              PyStr l ::
              PyInt (ag_n_atoms (u_atoms (universes w u))) ::
              box_cells (u_dimensions (universes w u)) ++
              [PyInt (rd_n_frames (u_trajectory (universes w u)));
               PyFloat (fdiv (rd_totaltime (u_trajectory (universes w u))) (float_of_int 1000));
               PyFloat (rd_dt (u_trajectory (universes w u)))])
           us names)].
Proof.
  intros Hrun. destruct (summary_accepted _ _ _ _ Hrun) as (names & -> & Hlen).
  exists names. split; [done|]. split; [done|].
  rewrite summary_labelled in Hrun by done. by injection Hrun as <-.
Qed.

(** ** Repeated calls *)

(** The dictionary that a call of [extract] has returned, as the heap it
    left holds it. *)
Definition dict_of (r : outcome nat * World) : option (gmap string pyval) :=
  match r.1 with
  | Return data => heap r.2 !! data
  | Raise _ => None
  end.

Lemma dict_of_extract w u : dict_of (extract u w) = Some (extracted (universes w u)).
Proof. rewrite extract_spec. unfold dict_of. simpl. by apply list_lookup_middle. Qed.

Lemma printed_allocated_nil w : printed (allocated w []) [] = w.
Proof. rewrite allocated_nil. destruct w; unfold printed; simpl. by rewrite app_nil_r. Qed.

(** [summary] allocates dictionaries and prints; it writes nothing else. *)
Lemma summary_frame w (us : list positive) labels :
  ∃ ds ts, (summary us labels w).2 = printed (allocated w ds) ts.
Proof.
  destruct labels as [labels|]; [|exists [], []; by rewrite printed_allocated_nil].
  unfold summary. rewrite (bind_return _ _ _ (length labels) w) by done.
  case_bool_decide; [exists [], []; by rewrite printed_allocated_nil|].
  erewrite bind_return; last by apply set_field_names_fresh, data_column_names_unique.
  destruct (for_each_frame (zip us labels)
              (mkTable ("simulation" :: data_column_names) []) w) as [ds Hds].
  destruct (for_each summary_row _ (zip us labels) w) as [[t|e] w1] eqn:Hloop;
    simpl in Hds; subst w1.
  - rewrite (bind_return _ _ _ _ _ Hloop). by exists ds, [t].
  - rewrite (bind_raise _ _ _ _ _ Hloop). exists ds, []. simpl.
    unfold printed. simpl. by rewrite app_nil_r.
Qed.

(** The outcome of [_check_groups] and of [minimage_distance] is determined
    by the state of the groups; both only extend the call log. *)
Lemma minimage_distance_groups w w' a b :
  groups w' = groups w →
  (minimage_distance a b w').1 = (minimage_distance a b w).1.
Proof.
  intros Hg. unfold minimage_distance, mbind, M_bind.
  rewrite !check_groups_cases, Hg.
  case_bool_decide; [done|].
  destruct (ag_dimensions (groups w a)), (ag_dimensions (groups w b)); try done.
  - destruct (allclose _ _); [|done]. run. by rewrite Hg.
  - run. by rewrite Hg.
Qed.

Lemma minimage_distance_frame w a b : ∃ c, (minimage_distance a b w).2 = logged w c.
Proof.
  unfold minimage_distance, mbind, M_bind. rewrite check_groups_cases.
  case_bool_decide; [exists []; by rewrite logged_nil|].
  destruct (ag_dimensions (groups w a)), (ag_dimensions (groups w b)).
  - destruct (allclose _ _); [|by eexists [_]]. run. eexists [_; _].
    unfold logged. simpl. by rewrite <-app_assoc.
  - exists []. by rewrite logged_nil.
  - exists []. by rewrite logged_nil.
  - run. by eexists [_].
Qed.

(** Claim C10: a second call of [minimage_distance] on the same groups
    returns what the first returned, and the groups are unchanged; a second
    call of [extract] on the same universe returns a dictionary with the
    same contents, and the universe is unchanged; and a call of [summary]
    in between changes neither the universes nor any dictionary that
    existed before it (its division of [totaltime] acts on dictionaries it
    has allocated itself), so [extract] still returns the same contents
    afterwards. *)
Theorem calls_are_repeatable w a b u (us : list positive) labels :
  (minimage_distance a b (minimage_distance a b w).2).1 = (minimage_distance a b w).1 ∧
  groups (minimage_distance a b w).2 = groups w ∧
  ∃ d, dict_of (extract u w) = Some d ∧
       universes (extract u w).2 = universes w ∧
       dict_of (extract u (extract u w).2) = Some d ∧
       universes (summary us labels (extract u w).2).2 = universes w ∧
       heap (extract u w).2 `prefix_of` heap (summary us labels (extract u w).2).2 ∧
       dict_of (extract u (summary us labels (extract u w).2).2) = Some d.
Proof.
  destruct (minimage_distance_frame w a b) as [c Hc].
  split; [apply minimage_distance_groups; by rewrite Hc|].
  split; [by rewrite Hc|].
  exists (extracted (universes w u)).
  destruct (summary_frame (extract u w).2 us labels) as (ds & ts & Hs).
  rewrite !dict_of_extract, Hs, extract_spec. simpl.
  repeat split; try done. by eexists.
Qed.

End Properties.

(** * Runs on the fixtures *)

Module Runs.

Import Fixtures.
#[local] Existing Instance Binary64.engine.
#[local] Open Scope positive_scope.

Set Warnings "-inexact-float".

(** [extract] on the universe without unit cell of [tests/test_info.py]:
    the values under the ten keys. *)
Example extract_charmm :
  (λ d : gmap string pyval, (λ k, d !! k) <$> data_column_keys) <$> dict_of (extract 2 world0) =
  Some (Some <$> [PyInt 3341; PyInt 0; PyInt 0; PyInt 0; PyInt 0; PyInt 0; PyInt 0;
                  PyInt 98; PyFloat 96.9999914562418%float;
                  PyFloat 0.9999999119200186%float]).
Proof. reflexivity. Qed.

(** [test_summary]: three universes, three labels. *)
Example summary_three :
  let run := summary [1; 2; 3]
               (Some [Some "Adk GROMACS"; Some "ADK DIMS"; Some "Adk PDB"]) world0 in
  run.1 = Return tt ∧
  (λ t, (field_names t, (take 2 <$> rows t, (λ r, r !! 9%nat) <$> rows t))) <$> stdout run.2 =
  [(["simulation"; "n_atoms"; "Lx/Å"; "Ly/Å"; "Lz/Å"; "alpha"; "beta"; "gamma";
     "n_frames"; "totaltime/ns"; "dt/ps"],
    ([[PyStr "Adk GROMACS"; PyInt 47681];
      [PyStr "ADK DIMS"; PyInt 3341];
      [PyStr "Adk PDB"; PyInt 47681]],
     [Some (PyFloat 0.90000006866455073%float);
      Some (PyFloat 0.096999991456241802%float);
      Some (PyFloat 0%float)]))].
Proof. split; reflexivity. Qed.

(** Distances without and with the periodic cell: the second pair of atoms
    is 65 apart, and 15 through the cell boundary. *)
Example distances_on_fixtures :
  (minimage_distance 1 2 world0).1 = Return [5; 65; 1.7320508075688772]%float ∧
  (minimage_distance 3 4 world0).1 = Return [5; 15; 1.7320508075688772]%float ∧
  (minimage_difference_vector 3 4 world0).1 =
    Return [(-3, -4, 0); (-15, 0, 0); (-1, -1, -1)]%float.
Proof. repeat split; reflexivity. Qed.

(** Cells that differ by a relative 1e-7 are close; a cell with one edge
    longer by 1 is not. *)
Example allclose_on_fixtures :
  allclose cell cell_noise = true ∧ allclose cell cell_other = false.
Proof. split; reflexivity. Qed.

Lemma no_box_raw_difference_witness :
  minimage_difference_vector 1 2 world0 =
  (Return (zip_with vsub pts_a pts_b), logged world0 [Call_subtract pts_a pts_b]).
Proof. apply (no_box_raw_difference world0 1 2); reflexivity. Defined.

Lemma size_mismatch_raises_witness :
  minimage_distance 3 7 world0 = (Raise size_mismatch, world0) ∧
  minimage_difference_vector 3 7 world0 = (Raise size_mismatch, world0).
Proof. apply (size_mismatch_raises world0 3 7). vm_compute. discriminate. Defined.

Lemma box_validation_witness :
  (∃ e, configuration_error e ∧
        (minimage_distance 3 2 world0).1 = Raise e ∧
        (minimage_difference_vector 3 2 world0).1 = Raise e) ∧
  (∃ e, configuration_error e ∧
        (minimage_distance 3 6 world0).1 = Raise e ∧
        (minimage_difference_vector 3 6 world0).1 = Raise e) ∧
  (returned (minimage_distance 1 2 world0).1 ∧
   returned (minimage_difference_vector 1 2 world0).1) ∧
  (returned (minimage_distance 3 5 world0).1 ∧
   returned (minimage_difference_vector 3 5 world0).1).
Proof.
  split; [|split; [|split]].
  - apply (box_validation world0 3 2); [reflexivity|].
    left. left. split; [by exists cell|reflexivity].
  - apply (box_validation world0 3 6); [reflexivity|].
    right. exists cell, cell_other. repeat split; reflexivity.
  - apply (box_validation world0 1 2); [reflexivity|].
    left. split; reflexivity.
  - apply (box_validation world0 3 5); [reflexivity|].
    right. exists cell, cell_noise. repeat split; reflexivity.
Defined.

Lemma labels_mismatch_raises_witness :
  summary [1; 2; 3] (Some [Some "Adk GROMACS"]) world0 =
  (Raise (ValueError (MsgLabels (Some [Some "Adk GROMACS"]) [1; 2; 3])), world0).
Proof. apply (labels_mismatch_raises world0 [1; 2; 3] [Some "Adk GROMACS"]). simpl. lia. Defined.

(** A list of labels with an absent entry has the length of the list of
    universes, and [summary] raises all the same: the row of the second
    universe has ten cells, the header eleven; nothing is printed. *)
Lemma summary_absent_label_refused :
  length [Some "Adk GROMACS"; None; Some "Adk PDB"] = length [1; 2; 3] ∧
  (summary [1; 2; 3] (Some [Some "Adk GROMACS"; None; Some "Adk PDB"]) world0).1 =
    Raise (ValueError (MsgRowWidth 10 11)) ∧
  stdout (summary [1; 2; 3] (Some [Some "Adk GROMACS"; None; Some "Adk PDB"]) world0).2 = [].
Proof. repeat split; reflexivity. Qed.

Lemma summary_string_labels_witness :
  ∃ ds, summary [1; 2; 3] (Some (Some <$> ["Adk GROMACS"; "ADK DIMS"; "Adk PDB"])) world0 =
          (Return tt,
           printed (allocated world0 ds)
             [summary_table world0 [1; 2; 3] ["Adk GROMACS"; "ADK DIMS"; "Adk PDB"]]) ∧
        length (rows (summary_table world0 [1; 2; 3] ["Adk GROMACS"; "ADK DIMS"; "Adk PDB"])) =
          length [1; 2; 3].
Proof.
  apply (summary_string_labels world0 [1; 2; 3] ["Adk GROMACS"; "ADK DIMS"; "Adk PDB"]).
  reflexivity.
Defined.

Lemma summary_rows_witness :
  ∃ names,
    Some [Some "Adk GROMACS"; Some "ADK DIMS"] = Some (Some <$> names) ∧
    length names = length [1; 2] ∧
    stdout (summary [1; 2] (Some [Some "Adk GROMACS"; Some "ADK DIMS"]) world0).2 =
    (stdout world0 ++ [
      mkTable
        ["simulation"; "n_atoms"; "Lx/Å"; "Ly/Å"; "Lz/Å"; "alpha"; "beta"; "gamma";
         "n_frames"; "totaltime/ns"; "dt/ps"]
        (zip_with
           (λ u l,
              PyStr l ::
              PyInt (ag_n_atoms (u_atoms (universes world0 u))) ::
              box_cells (u_dimensions (universes world0 u)) ++
              [PyInt (rd_n_frames (u_trajectory (universes world0 u)));
               PyFloat (fdiv (rd_totaltime (u_trajectory (universes world0 u)))
                          (float_of_int 1000));
               PyFloat (rd_dt (u_trajectory (universes world0 u)))])
           [1; 2] names)])%list.
Proof.
  apply (summary_rows world0 [1; 2] (Some [Some "Adk GROMACS"; Some "ADK DIMS"])).
  apply pair_of_fst. reflexivity.
Defined.

End Runs.

(** * Further properties of [distances.py] *)

Section Distances.

Context `{External}.

Implicit Types (w : World) (a b : positive).

(** The element-wise difference of the positions of two groups. *)
Definition raw_difference w a b : list (Vec3 float) :=
  zip_with vsub (ag_positions (groups w a)) (ag_positions (groups w b)).

(** What the two operations do after the validation. *)
Lemma minimage_distance_eval w a b :
  minimage_distance a b w =
  match _check_groups a b w with
  | (Return _, w1) =>
      (Return (calc_bonds (ag_positions (groups w a)) (ag_positions (groups w b))
                 (ag_dimensions (groups w a))),
       logged w1 [Call_calc_bonds (ag_positions (groups w a)) (ag_positions (groups w b))
                    (ag_dimensions (groups w a))])
  | (Raise e, w1) => (Raise e, w1)
  end.
Proof.
  unfold minimage_distance, mbind at 1, M_bind at 1.
  rewrite check_groups_cases. case_bool_decide; [done|].
  destruct (ag_dimensions (groups w a)) eqn:Ha, (ag_dimensions (groups w b)) eqn:Hb;
    try done.
  - destruct (allclose _ _); [|done].
    unfold positions, dimensions, lib_calc_bonds, log_call, gets, modify, mbind, M_bind,
      mret, M_ret, logged. simpl. by rewrite Ha.
  - unfold positions, dimensions, lib_calc_bonds, log_call, gets, modify, mbind, M_bind,
      mret, M_ret, logged. simpl. by rewrite Ha.
Qed.

Lemma minimage_difference_vector_eval w a b :
  minimage_difference_vector a b w =
  match _check_groups a b w with
  | (Return _, w1) =>
      match ag_dimensions (groups w a) with
      | Some bx =>
          (Return (minimize_vectors (raw_difference w a b) bx),
           logged w1 [Call_subtract (ag_positions (groups w a)) (ag_positions (groups w b));
                      Call_minimize_vectors (raw_difference w a b) bx])
      | None =>
          (Return (raw_difference w a b),
           logged w1 [Call_subtract (ag_positions (groups w a)) (ag_positions (groups w b))])
      end
  | (Raise e, w1) => (Raise e, w1)
  end.
Proof.
  unfold minimage_difference_vector, mbind at 1, M_bind at 1.
  rewrite check_groups_cases. case_bool_decide as Hn; [done|].
  assert (length (ag_positions (groups w a)) = length (ag_positions (groups w b))) as Hlen.
  { apply equal_sizes. by destruct (decide (ag_n_atoms (groups w a) = ag_n_atoms (groups w b))). }
  destruct (ag_dimensions (groups w a)) eqn:Ha, (ag_dimensions (groups w b)) eqn:Hb;
    try done.
  - destruct (allclose _ _); [|done].
    unfold positions at 1 2. unfold gets, mbind at 1 2, M_bind. simpl.
    rewrite (bind_return _ _ _ _ _ (np_subtract_equal_length _ _ _ Hlen)).
    unfold dimensions, lib_minimize_vectors, log_call, gets, modify, mbind, M_bind,
      mret, M_ret, logged, raw_difference. simpl. rewrite Ha. simpl.
    by rewrite <-!app_assoc.
  - unfold positions at 1 2. unfold gets, mbind at 1 2, M_bind. simpl.
    rewrite (bind_return _ _ _ _ _ (np_subtract_equal_length _ _ _ Hlen)).
    unfold dimensions, gets, mbind, M_bind, mret, M_ret, logged, raw_difference. simpl.
    by rewrite Ha.
Qed.

(** Why [_check_groups] raised, and what held when it returned. *)
Lemma check_groups_raise w a b e :
  (_check_groups a b w).1 = Raise e →
  (e = size_mismatch ∧ ag_n_atoms (groups w a) ≠ ag_n_atoms (groups w b)) ∨
  (ag_n_atoms (groups w a) = ag_n_atoms (groups w b) ∧
   ((e = box_missing ∧
     exactly_one_box (ag_dimensions (groups w a)) (ag_dimensions (groups w b))) ∨
    (e = box_differs ∧
     boxes_differ (ag_dimensions (groups w a)) (ag_dimensions (groups w b))))).
Proof.
  rewrite check_groups_cases. case_bool_decide as Hn; simpl.
  - intros [= <-]. by left.
  - intros He. right. split; [done|].
    destruct (ag_dimensions (groups w a)) as [xa|], (ag_dimensions (groups w b)) as [xb|];
      simpl in He; try done.
    + destruct (allclose xa xb) eqn:Hclose; [done|]. injection He as <-.
      right. split; [done|]. by exists xa, xb.
    + injection He as <-. left. split; [done|]. left. split; [by exists xa|done].
    + injection He as <-. left. split; [done|]. right. split; [done|by exists xb].
Qed.

Lemma check_groups_return w a b (x : unit) :
  (_check_groups a b w).1 = Return x →
  ag_n_atoms (groups w a) = ag_n_atoms (groups w b) ∧
  ((ag_dimensions (groups w a) = None ∧ ag_dimensions (groups w b) = None) ∨
   boxes_agree (ag_dimensions (groups w a)) (ag_dimensions (groups w b))).
Proof.
  rewrite check_groups_cases. case_bool_decide as Hn; simpl; [done|].
  intros Hx. split; [done|].
  destruct (ag_dimensions (groups w a)) as [xa|], (ag_dimensions (groups w b)) as [xb|];
    simpl in Hx; try done.
  - destruct (allclose xa xb) eqn:Hclose; [|done]. right. by exists xa, xb.
  - by left.
Qed.

Lemma check_groups_groups w w' a b :
  groups w' = groups w → (_check_groups a b w').1 = (_check_groups a b w).1.
Proof.
  intros Hg. rewrite !check_groups_cases, Hg. case_bool_decide; [done|].
  by destruct (ag_dimensions (groups w a)), (ag_dimensions (groups w b)).
Qed.

Lemma check_groups_frame w a b : ∃ c, (_check_groups a b w).2 = logged w c.
Proof.
  rewrite check_groups_cases. case_bool_decide; [exists []; by rewrite logged_nil|].
  destruct (ag_dimensions (groups w a)), (ag_dimensions (groups w b)); simpl;
    first (by eexists [_]); exists []; by rewrite logged_nil.
Qed.

Lemma logged_logged w (c c' : list libcall) : logged (logged w c) c' = logged w (c ++ c').
Proof. unfold logged. simpl. by rewrite app_assoc. Qed.

(** Both operations raise exactly when the validation raises, and then the
    same exception. *)
Lemma minimage_distance_raise w a b e :
  (minimage_distance a b w).1 = Raise e ↔ (_check_groups a b w).1 = Raise e.
Proof.
  rewrite minimage_distance_eval.
  destruct (_check_groups a b w) as [[[]|e'] w1]; simpl; split; intros [=]; by subst.
Qed.

Lemma minimage_difference_vector_raise w a b e :
  (minimage_difference_vector a b w).1 = Raise e ↔ (_check_groups a b w).1 = Raise e.
Proof.
  rewrite minimage_difference_vector_eval.
  destruct (_check_groups a b w) as [[[]|e'] w1]; [|simpl; split; intros [=]; by subst].
  destruct (ag_dimensions (groups w a)); simpl; split; intros [=].
Qed.

(** Property X1: the only exceptions of the two operations are the three of
    the validation, each for its own reason; in particular the subtraction of
    the position arrays never fails to broadcast. *)
Theorem validation_errors_only w a b e :
  (minimage_distance a b w).1 = Raise e ∨
  (minimage_difference_vector a b w).1 = Raise e →
  (e = size_mismatch ∧ ag_n_atoms (groups w a) ≠ ag_n_atoms (groups w b)) ∨
  (ag_n_atoms (groups w a) = ag_n_atoms (groups w b) ∧
   ((e = box_missing ∧
     exactly_one_box (ag_dimensions (groups w a)) (ag_dimensions (groups w b))) ∨
    (e = box_differs ∧
     boxes_differ (ag_dimensions (groups w a)) (ag_dimensions (groups w b))))).
Proof.
  intros [He|He]; apply check_groups_raise.
  - by apply minimage_distance_raise.
  - by apply minimage_difference_vector_raise.
Qed.

(** Property X2: the two operations share their validation: on the same
    groups, one raises an exception exactly when the other raises it. *)
Theorem same_validation w a b e :
  (minimage_distance a b w).1 = Raise e ↔
  (minimage_difference_vector a b w).1 = Raise e.
Proof. by rewrite minimage_distance_raise, minimage_difference_vector_raise. Qed.

(** Property X3: when [minimage_distance] returns, the groups had the same
    size and compatible unit cells, and the value is [calc_bonds] of the two
    position arrays with the unit cell of the first group. *)
Theorem minimage_distance_returns w a b (d : list float) w' :
  minimage_distance a b w = (Return d, w') →
  d = calc_bonds (ag_positions (groups w a)) (ag_positions (groups w b))
        (ag_dimensions (groups w a)) ∧
  ag_n_atoms (groups w a) = ag_n_atoms (groups w b) ∧
  ((ag_dimensions (groups w a) = None ∧ ag_dimensions (groups w b) = None) ∨
   boxes_agree (ag_dimensions (groups w a)) (ag_dimensions (groups w b))).
Proof.
  rewrite minimage_distance_eval. intros Hrun.
  pose proof (check_groups_return w a b tt) as Hchk.
  destruct (_check_groups a b w) as [[[]|e] w1]; [|done].
  injection Hrun as <- _. split; [done|]. by apply Hchk.
Qed.

(** Property X4: when [minimage_difference_vector] returns, the value is the
    element-wise difference of the positions, one vector per atom of the first
    group, passed through [minimize_vectors] with the unit cell of the first
    group when there is one. *)
Theorem minimage_difference_vector_returns w a b (r : list (Vec3 float)) w' :
  minimage_difference_vector a b w = (Return r, w') →
  r = match ag_dimensions (groups w a) with
      | Some bx => minimize_vectors (raw_difference w a b) bx
      | None => raw_difference w a b
      end ∧
  length (raw_difference w a b) = length (ag_positions (groups w a)) ∧
  ∀ i p q, ag_positions (groups w a) !! i = Some p →
           ag_positions (groups w b) !! i = Some q →
           raw_difference w a b !! i = Some (vsub p q).
Proof.
  rewrite minimage_difference_vector_eval. intros Hrun.
  pose proof (check_groups_return w a b tt) as Hchk.
  destruct (_check_groups a b w) as [[[]|e] w1]; [|done].
  destruct Hchk as [Hn _]; [done|]. apply equal_sizes in Hn.
  split; [|split].
  - destruct (ag_dimensions (groups w a)); by injection Hrun as <- _.
  - unfold raw_difference. by rewrite length_zip_with_l_eq.
  - intros i p q Hp Hq. unfold raw_difference.
    by rewrite lookup_zip_with, Hp, Hq.
Qed.

(** Property X5: neither operation writes anything but the log of library
    calls: the groups, the universes, the dictionaries and standard output are
    as before; and [minimage_difference_vector], called again in the world it
    left, has the same outcome. *)
Theorem distance_operations_frame w a b :
  (∃ c, (minimage_distance a b w).2 = logged w c) ∧
  (∃ c, (minimage_difference_vector a b w).2 = logged w c) ∧
  (minimage_difference_vector a b (minimage_difference_vector a b w).2).1 =
    (minimage_difference_vector a b w).1.
Proof.
  assert (∃ c, (minimage_difference_vector a b w).2 = logged w c) as Hframe.
  { rewrite minimage_difference_vector_eval.
    destruct (check_groups_frame w a b) as [c Hc].
    destruct (_check_groups a b w) as [[[]|e] w1]; simpl in Hc; subst w1.
    - destruct (ag_dimensions (groups w a)); simpl; rewrite logged_logged; by eexists.
    - by exists c. }
  split; [|split; [done|]].
  - rewrite minimage_distance_eval.
    destruct (check_groups_frame w a b) as [c Hc].
    destruct (_check_groups a b w) as [[[]|e] w1]; simpl in Hc; subst w1.
    + simpl. rewrite logged_logged. by eexists.
    + by exists c.
  - destruct Hframe as [c ->].
    rewrite !minimage_difference_vector_eval.
    pose proof (check_groups_groups w (logged w c) a b eq_refl) as Hsame.
    destruct (_check_groups a b (logged w c)) as [[[]|e1] w1],
             (_check_groups a b w) as [[[]|e2] w2]; simpl in Hsame; try done.
    + unfold raw_difference. simpl. by destruct (ag_dimensions (groups w a)).
    + by injection Hsame as ->.
Qed.

Lemma check_groups_size_iff w a b :
  (_check_groups a b w).1 = Raise size_mismatch ↔
  ag_n_atoms (groups w a) ≠ ag_n_atoms (groups w b).
Proof.
  split.
  - intros [[_ Hn]|[_ [[[=] _]|[[=] _]]]]%check_groups_raise. done.
  - intros Hn. by rewrite check_groups_size_mismatch.
Qed.

Lemma check_groups_box_missing_iff w a b :
  (_check_groups a b w).1 = Raise box_missing ↔
  ag_n_atoms (groups w a) = ag_n_atoms (groups w b) ∧
  exactly_one_box (ag_dimensions (groups w a)) (ag_dimensions (groups w b)).
Proof.
  split.
  - intros [[[=] _]|[Hn [[_ Hbox]|[[=] _]]]]%check_groups_raise. done.
  - intros [Hn Hbox]. rewrite check_groups_cases, bool_decide_eq_false_2 by (by intros []).
    by destruct Hbox as [[[xa ->] ->]|[-> [xb ->]]].
Qed.

(** Property X6: the size check and the check that both or neither group has a
    unit cell do not depend on the order of the two groups. *)
Theorem validation_symmetric w a b :
  ((minimage_distance a b w).1 = Raise size_mismatch ↔
   (minimage_distance b a w).1 = Raise size_mismatch) ∧
  ((minimage_distance a b w).1 = Raise box_missing ↔
   (minimage_distance b a w).1 = Raise box_missing).
Proof.
  rewrite !minimage_distance_raise, !check_groups_size_iff, !check_groups_box_missing_iff.
  unfold exactly_one_box. split; [split; intros Hn Heq; by apply Hn|].
  split; intros [Hn [[Ha Hb]|[Ha Hb]]]; (split; [done|]); [by right|by left|by right|by left].
Qed.

End Distances.

(** * Further properties of [info.py] *)

Section Info.

Context `{External}.

Implicit Types (w : World) (u : positive) (us : list positive).

(** The exception of a row that is one cell short of the header. *)
Definition row_too_short : exn := ValueError (MsgRowWidth 10 11).

(** ** The dictionary of [extract] *)

(** Property X7: besides the six unit-cell entries, the dictionary of
    [extract] holds the atom count, the frame count, the total time as the
    trajectory gives it (not converted) and the time step; it has no entry
    under any other key. *)
Theorem extract_values w u :
  ∃ d, dict_of (extract u w) = Some d ∧
       d !! "n_atoms" = Some (PyInt (ag_n_atoms (u_atoms (universes w u)))) ∧
       d !! "n_frames" = Some (PyInt (rd_n_frames (u_trajectory (universes w u)))) ∧
       d !! "totaltime" = Some (PyFloat (rd_totaltime (u_trajectory (universes w u)))) ∧
       d !! "dt" = Some (PyFloat (rd_dt (u_trajectory (universes w u)))) ∧
       ∀ k, k ∉ data_column_keys → d !! k = None.
Proof.
  exists (extracted (universes w u)). split; [apply dict_of_extract|].
  split; [|split; [|split; [|split]]].
  - unfold extracted, data_values, box_cells.
    destruct (u_dimensions (universes w u)); vm_compute; done.
  - unfold extracted, data_values, box_cells.
    destruct (u_dimensions (universes w u)); vm_compute; done.
  - apply extracted_totaltime.
  - unfold extracted, data_values, box_cells.
    destruct (u_dimensions (universes w u)); vm_compute; done.
  - intros k Hk. apply not_elem_of_dom.
    destruct (extracted_keys (universes w u)) as [-> _].
    by rewrite elem_of_list_to_set.
Qed.

(** Property X8: every call of [extract] returns a new dictionary: its address
    was not in use before, a later call returns another address and leaves the
    first dictionary as it is, and an assignment into the first dictionary
    does not show in the second. *)
Theorem extract_no_aliasing w u u' (k : string) (v : pyval) :
  ∃ l1 l2,
    (extract u w).1 = Return l1 ∧
    (extract u' (extract u w).2).1 = Return l2 ∧
    l1 ≠ l2 ∧
    heap w !! l1 = None ∧
    heap w `prefix_of` heap (extract u w).2 ∧
    heap (extract u' (extract u w).2).2 !! l1 = heap (extract u w).2 !! l1 ∧
    heap (dict_setitem l1 k v (extract u' (extract u w).2).2).2 !! l2 =
      heap (extract u' (extract u w).2).2 !! l2.
Proof.
  exists (length (heap w)), (S (length (heap w))).
  rewrite !extract_spec. simpl. rewrite length_app. simpl.
  split; [done|]. split; [f_equal; lia|]. split; [lia|].
  split; [by apply lookup_ge_None_2|]. split; [by apply prefix_app_r|].
  split.
  - rewrite lookup_app_l; [done|]. rewrite length_app. simpl. lia.
  - apply list_lookup_alter_ne. lia.
Qed.

(** ** The loop of [summary] *)

Lemma for_each_raises (l : list (positive * option string)) :
  ∀ (t : PrettyTable) w e,
    labelled t → (for_each summary_row t l w).1 = Raise e →
    e = row_too_short ∧ None ∈ l.*2.
Proof.
  induction l as [|[u [name|]] l IH]; intros t w e Ht Hrun; [done|..];
    rewrite for_each_cons in Hrun.
  - rewrite (bind_return _ _ _ _ _ (summary_row_labelled t u name w Ht)) in Hrun.
    apply IH in Hrun as [-> Hin]; [|done]. split; [done|]. simpl. apply elem_of_cons. by right.
  - rewrite (bind_raise _ _ _ _ _ (summary_row_unlabelled t u w Ht)) in Hrun.
    injection Hrun as <-. split; [done|]. simpl. apply elem_of_cons. by left.
Qed.

Lemma for_each_absent (l : list (positive * option string)) :
  ∀ (t : PrettyTable) w,
    labelled t → None ∈ l.*2 → (for_each summary_row t l w).1 = Raise row_too_short.
Proof.
  induction l as [|[u [name|]] l IH]; intros t w Ht Hin.
  - by apply elem_of_nil in Hin.
  - rewrite for_each_cons.
    rewrite (bind_return _ _ _ _ _ (summary_row_labelled t u name w Ht)).
    apply IH; [done|]. simpl in Hin. by apply elem_of_cons in Hin as [|].
  - rewrite for_each_cons.
    by rewrite (bind_raise _ _ _ _ _ (summary_row_unlabelled t u w Ht)).
Qed.

(** [summary] on as many labels as universes: the loop, then [print]. *)
Lemma summary_eval w us (labels : list (option string)) :
  length labels = length us →
  summary us (Some labels) w =
  match for_each summary_row (mkTable ("simulation" :: data_column_names) [])
          (zip us labels) w with
  | (Return t, w1) => (Return tt, printed w1 [t])
  | (Raise e, w1) => (Raise e, w1)
  end.
Proof.
  intros Hlen. unfold summary.
  rewrite (bind_return _ _ _ (length labels) w) by done.
  rewrite bool_decide_eq_false_2 by (by intros []).
  erewrite bind_return; last by apply set_field_names_fresh, data_column_names_unique.
  unfold mbind, M_bind.
  by destruct (for_each summary_row _ (zip us labels) w) as [[t|e] w1].
Qed.

Lemma labelled_header : labelled (mkTable ("simulation" :: data_column_names) []).
Proof. done. Qed.

(** ** Outcomes of [summary] *)

(** Property X9: [summary] raises for three reasons only: [labels] left unset,
    a number of labels that is not the number of universes, or an absent label
    among as many labels as universes. It never raises a [KeyError]: every key
    it reads is a key of the dictionary of [extract]. *)
Theorem summary_errors_only w us labels e :
  (summary us labels w).1 = Raise e →
  (labels = None ∧ e = TypeError (Msg "object of type 'NoneType' has no len()")) ∨
  (∃ ls, labels = Some ls ∧ length ls ≠ length us ∧
         e = ValueError (MsgLabels (Some ls) us)) ∨
  (∃ ls, labels = Some ls ∧ length ls = length us ∧ None ∈ ls ∧ e = row_too_short).
Proof.
  destruct labels as [ls|]; [|intros [= <-]; by left].
  intros Hrun. right. destruct (decide (length ls = length us)) as [Hlen|Hlen].
  - right. exists ls. rewrite summary_eval in Hrun by done.
    pose proof (for_each_raises (zip us ls) (mkTable ("simulation" :: data_column_names) [])
                  w e labelled_header) as Hloop.
    destruct (for_each summary_row _ (zip us ls) w) as [[t|e'] w1]; [done|].
    simpl in Hrun, Hloop. injection Hrun as <-.
    destruct (Hloop eq_refl) as [-> Hin].
    rewrite snd_zip in Hin by lia. done.
  - left. exists ls. unfold summary in Hrun.
    rewrite (bind_return _ _ _ (length ls) w) in Hrun by done.
    rewrite bool_decide_eq_true_2 in Hrun by done. by injection Hrun as <-.
Qed.

(** Property X10: an absent label among as many labels as universes makes
    [summary] raise the [ValueError] of a row that is too short, and nothing
    is printed. *)
Theorem summary_absent_label w us (ls : list (option string)) :
  length ls = length us → None ∈ ls →
  (summary us (Some ls) w).1 = Raise row_too_short ∧
  stdout (summary us (Some ls) w).2 = stdout w.
Proof.
  intros Hlen Hin. rewrite summary_eval by done.
  pose proof (for_each_absent (zip us ls) (mkTable ("simulation" :: data_column_names) [])
                w labelled_header) as Hloop.
  rewrite snd_zip in Hloop by lia. specialize (Hloop Hin).
  destruct (for_each_frame (zip us ls) (mkTable ("simulation" :: data_column_names) []) w)
    as [ds Hds].
  destruct (for_each summary_row _ (zip us ls) w) as [[t|e'] w1]; [done|].
  simpl in *. injection Hloop as ->. by subst w1.
Qed.

(** Property X11: [summary] prints all or nothing: when it returns it has
    written exactly one table, and when it raises standard output is as it
    was. *)
Theorem summary_prints_all_or_nothing w us labels :
  match (summary us labels w).1 with
  | Return _ => ∃ t, stdout (summary us labels w).2 = stdout w ++ [t]
  | Raise _ => stdout (summary us labels w).2 = stdout w
  end.
Proof.
  destruct labels as [ls|]; [|done].
  destruct (decide (length ls = length us)) as [Hlen|Hlen].
  - rewrite summary_eval by done.
    destruct (for_each_frame (zip us ls) (mkTable ("simulation" :: data_column_names) []) w)
      as [ds Hds].
    destruct (for_each summary_row _ (zip us ls) w) as [[t|e'] w1];
      simpl in *; subst w1; [by exists t|done].
  - unfold summary. rewrite (bind_return _ _ _ (length ls) w) by done.
    by rewrite bool_decide_eq_true_2.
Qed.

(** Property X12: a second call of [summary], in the world the first one left,
    prints the same table again: the conversion to nanoseconds of the first
    call has not reached the universes. *)
Theorem summary_twice w us labels w1 :
  summary us labels w = (Return tt, w1) →
  ∃ t w2, summary us labels w1 = (Return tt, w2) ∧
          stdout w1 = stdout w ++ [t] ∧ stdout w2 = stdout w ++ [t; t].
Proof.
  intros Hrun. destruct (summary_accepted _ _ _ _ Hrun) as (names & -> & Hlen).
  rewrite summary_labelled in Hrun by done. injection Hrun as <-.
  eexists (summary_table w us names), _.
  split; [by apply summary_labelled|]. split; [done|].
  simpl. by rewrite <-app_assoc.
Qed.

(** Property X13: the table that [summary] prints is rectangular: it has one
    row per universe, and every row has the eleven cells of the header. *)
Theorem summary_table_rectangular w us labels w' :
  summary us labels w = (Return tt, w') →
  ∃ t, stdout w' = stdout w ++ [t] ∧
       length (field_names t) = 11%nat ∧
       length (rows t) = length us ∧
       Forall (λ row, length row = length (field_names t)) (rows t).
Proof.
  intros Hrun. destruct (summary_accepted _ _ _ _ Hrun) as (names & -> & Hlen).
  rewrite summary_labelled in Hrun by done. injection Hrun as <-.
  exists (summary_table w us names). split; [done|]. split; [done|].
  split; [by apply summary_table_rows|].
  apply Forall_lookup. intros i row [u [l (-> & _ & _)]]%lookup_zip_with_Some.
  unfold row_cells. by rewrite length_cons, data_values_length.
Qed.

(** Property X14: a universe that is listed twice gets two rows with the same
    ten values: each row is read from a dictionary of its own, so the total
    time is divided by 1000 once in each. *)
Theorem summary_repeated_universe w us labels w' :
  summary us labels w = (Return tt, w') →
  ∃ t, stdout w' = stdout w ++ [t] ∧
       ∀ i j u row_i row_j,
         us !! i = Some u → us !! j = Some u →
         rows t !! i = Some row_i → rows t !! j = Some row_j →
         tail row_i = tail row_j ∧
         row_i !! 9%nat =
           Some (PyFloat (fdiv (rd_totaltime (u_trajectory (universes w u)))
                            (float_of_int 1000))).
Proof.
  intros Hrun. destruct (summary_accepted _ _ _ _ Hrun) as (names & -> & Hlen).
  rewrite summary_labelled in Hrun by done. injection Hrun as <-.
  exists (summary_table w us names). split; [done|].
  intros i j u row_i row_j Hi Hj
    [ui [li (-> & Hui & _)]]%lookup_zip_with_Some
    [uj [lj (-> & Huj & _)]]%lookup_zip_with_Some.
  rewrite Hi in Hui. rewrite Hj in Huj. injection Hui as <-. injection Huj as <-.
  split; [done|].
  unfold row_cells, data_values, box_cells, ps_to_ns.
  by destruct (u_dimensions (universes w u)).
Qed.

End Info.

(** * Further runs on the fixtures *)

Module MoreRuns.

Set Warnings "-inexact-float".

Import Fixtures.
#[local] Existing Instance Binary64.engine.
#[local] Open Scope positive_scope.

Lemma validation_errors_only_witness :
  (box_differs = size_mismatch ∧
   ag_n_atoms (groups world0 3) ≠ ag_n_atoms (groups world0 6)) ∨
  (ag_n_atoms (groups world0 3) = ag_n_atoms (groups world0 6) ∧
   ((box_differs = box_missing ∧
     exactly_one_box (ag_dimensions (groups world0 3)) (ag_dimensions (groups world0 6))) ∨
    (box_differs = box_differs ∧
     boxes_differ (ag_dimensions (groups world0 3)) (ag_dimensions (groups world0 6))))).
Proof. apply (validation_errors_only world0 3 6 box_differs). left. reflexivity. Defined.

Lemma minimage_distance_returns_witness :
  [5; 15; 1.7320508075688772]%float =
    calc_bonds (ag_positions (groups world0 3)) (ag_positions (groups world0 4))
      (ag_dimensions (groups world0 3)) ∧
  ag_n_atoms (groups world0 3) = ag_n_atoms (groups world0 4) ∧
  ((ag_dimensions (groups world0 3) = None ∧ ag_dimensions (groups world0 4) = None) ∨
   boxes_agree (ag_dimensions (groups world0 3)) (ag_dimensions (groups world0 4))).
Proof.
  apply (minimage_distance_returns world0 3 4 _ (minimage_distance 3 4 world0).2).
  apply pair_of_fst. reflexivity.
Defined.

Lemma minimage_difference_vector_returns_witness :
  [(-3, -4, 0); (-15, 0, 0); (-1, -1, -1)]%float =
    match ag_dimensions (groups world0 3) with
    | Some bx => minimize_vectors (raw_difference world0 3 4) bx
    | None => raw_difference world0 3 4
    end ∧
  length (raw_difference world0 3 4) = length (ag_positions (groups world0 3)) ∧
  ∀ i p q, ag_positions (groups world0 3) !! i = Some p →
           ag_positions (groups world0 4) !! i = Some q →
           raw_difference world0 3 4 !! i = Some (vsub p q).
Proof.
  apply (minimage_difference_vector_returns world0 3 4 _
           (minimage_difference_vector 3 4 world0).2).
  apply pair_of_fst. reflexivity.
Defined.

Lemma summary_errors_only_witness :
  (Some [Some "Adk GROMACS"; None] = None ∧
   row_too_short = TypeError (Msg "object of type 'NoneType' has no len()")) ∨
  (∃ ls, Some [Some "Adk GROMACS"; None] = Some ls ∧ length ls ≠ length [1; 2] ∧
         row_too_short = ValueError (MsgLabels (Some ls) [1; 2])) ∨
  (∃ ls, Some [Some "Adk GROMACS"; None] = Some ls ∧ length ls = length [1; 2] ∧
         None ∈ ls ∧ row_too_short = row_too_short).
Proof.
  apply (summary_errors_only world0 [1; 2] (Some [Some "Adk GROMACS"; None]) row_too_short).
  reflexivity.
Defined.

Lemma summary_absent_label_witness :
  (summary [1; 2] (Some [Some "Adk GROMACS"; None]) world0).1 = Raise row_too_short ∧
  stdout (summary [1; 2] (Some [Some "Adk GROMACS"; None]) world0).2 = stdout world0.
Proof.
  apply (summary_absent_label world0 [1; 2] [Some "Adk GROMACS"; None]); [reflexivity|].
  apply elem_of_cons. right. apply elem_of_cons. by left.
Defined.

Lemma summary_twice_witness :
  ∃ t w2,
    summary [1; 2] (Some [Some "Adk GROMACS"; Some "ADK DIMS"])
      (summary [1; 2] (Some [Some "Adk GROMACS"; Some "ADK DIMS"]) world0).2 =
      (Return tt, w2) ∧
    stdout (summary [1; 2] (Some [Some "Adk GROMACS"; Some "ADK DIMS"]) world0).2 =
      (stdout world0 ++ [t])%list ∧
    stdout w2 = (stdout world0 ++ [t; t])%list.
Proof.
  apply (summary_twice world0 [1; 2] (Some [Some "Adk GROMACS"; Some "ADK DIMS"])).
  apply pair_of_fst. reflexivity.
Defined.

Lemma summary_table_rectangular_witness :
  ∃ t, stdout (summary [1; 2] (Some [Some "Adk GROMACS"; Some "ADK DIMS"]) world0).2 =
         (stdout world0 ++ [t])%list ∧
       length (field_names t) = 11%nat ∧
       length (rows t) = length [1; 2] ∧
       Forall (λ row, length row = length (field_names t)) (rows t).
Proof.
  apply (summary_table_rectangular world0 [1; 2]
           (Some [Some "Adk GROMACS"; Some "ADK DIMS"])).
  apply pair_of_fst. reflexivity.
Defined.

Lemma summary_repeated_universe_witness :
  ∃ t, stdout (summary [2; 2] (Some [Some "first"; Some "second"]) world0).2 =
         (stdout world0 ++ [t])%list ∧
       ∀ i j u row_i row_j,
         [2; 2] !! i = Some u → [2; 2] !! j = Some u →
         rows t !! i = Some row_i → rows t !! j = Some row_j →
         tail row_i = tail row_j ∧
         row_i !! 9%nat =
           Some (PyFloat (fdiv (rd_totaltime (u_trajectory (universes world0 u)))
                            (float_of_int 1000))).
Proof.
  apply (summary_repeated_universe world0 [2; 2] (Some [Some "first"; Some "second"])).
  apply pair_of_fst. reflexivity.
Defined.

End MoreRuns.

(** * The distance and the norm of the difference vector

    [calc_bonds] and [minimize_vectors] belong to MDAnalysis, not to the
    files under [src/]; section 4.1 of the specification says what they
    compute.  This part builds an [External] from those words, over any
    arithmetic, and relates the two operations of [distances.py] on it. *)

(** The scalar operations the geometry needs. *)
Record Arithmetic : Type := mkArithmetic {
  num : Type;
  num_add : num → num → num;
  num_sub : num → num → num;
  num_mul : num → num → num;
  num_div : num → num → num;
  num_sqrt : num → num;
  num_ltb : num → num → bool;
  num_of_int : Z → num }.

Module SpecGeometry.

Section Geometry.

Variable A : Arithmetic.

(** The three cell vectors of a unit cell (its lengths and angles). *)
Variable cell_vectors : Box (num A) → Vec3 (num A) * Vec3 (num A) * Vec3 (num A).

(** [numpy.allclose] on two unit cells. *)
Variable close : Box (num A) → Box (num A) → bool.

Definition vadd (p q : Vec3 (num A)) : Vec3 (num A) :=
  let '(px, py, pz) := p in
  let '(qx, qy, qz) := q in
  (num_add A px qx, num_add A py qy, num_add A pz qz).

Definition vdiff (p q : Vec3 (num A)) : Vec3 (num A) :=
  let '(px, py, pz) := p in
  let '(qx, qy, qz) := q in
  (num_sub A px qx, num_sub A py qy, num_sub A pz qz).

Definition vscale (k : Z) (p : Vec3 (num A)) : Vec3 (num A) :=
  let '(px, py, pz) := p in
  (num_mul A (num_of_int A k) px, num_mul A (num_of_int A k) py,
   num_mul A (num_of_int A k) pz).

(** Modelled from the spec: the Euclidean norm, the length of a vector
    (section 4.1: "the norm of that chosen vector"). *)
Definition norm (p : Vec3 (num A)) : num A :=
  let '(px, py, pz) := p in
  num_sqrt A (num_add A (num_add A (num_mul A px px) (num_mul A py py)) (num_mul A pz pz)).

(** Modelled from the spec: the candidates of section 4.1, "each
    axis-aligned or triclinic lattice translation within the 3x3x3
    neighborhood of periodic images (27 candidates)" applied to a vector. *)
Definition periodic_images (box : Box (num A)) (v : Vec3 (num A)) : list (Vec3 (num A)) :=
  let '(va, vb, vc) := cell_vectors box in
  i ← [-1; 0; 1]; j ← [-1; 0; 1]; k ← [-1; 0; 1];
  [vadd v (vadd (vscale i va) (vadd (vscale j vb) (vscale k vc)))].

(** Modelled from the spec: "select the translation of the raw difference
    vector that yields the smallest Euclidean norm" (section 4.1); among
    candidates of equal norm the first one is kept. *)
Definition minimum_image (box : Box (num A)) (v : Vec3 (num A)) : Vec3 (num A) :=
  fold_left (λ best c, if num_ltb A (norm c) (norm best) then c else best)
    (periodic_images box v) v.

(** Modelled from the spec: [MDAnalysis.lib.distances.minimize_vectors],
    which is not under [src/]: every vector is replaced by its minimum
    image (section 4.1, displacement vector). *)
Definition spec_minimize_vectors (v : list (Vec3 (num A))) (box : Box (num A))
  : list (Vec3 (num A)) :=
  minimum_image box <$> v.

(** Modelled from the spec: [MDAnalysis.lib.distances.calc_bonds], which is
    not under [src/]: element [i] is the norm of the minimum image of the
    difference of the two positions; without a unit cell "the calculation
    degenerates to ordinary Euclidean distance" (section 4.1, scalar
    distance). *)
Definition spec_calc_bonds (x y : list (Vec3 (num A))) (box : option (Box (num A)))
  : list (num A) :=
  zip_with (λ p q, norm (match box with
                         | Some bx => minimum_image bx (vdiff p q)
                         | None => vdiff p q
                         end)) x y.

(** Modelled from the spec: the libraries of section 4.1 as an [External]. *)
Definition engine : External :=
  Build_External (num A) (num_sub A) (num_div A) (num_of_int A)
    (λ z d, num_div A (num_of_int A z) (num_of_int A d))
    close spec_calc_bonds spec_minimize_vectors.

Lemma vsub_vdiff (p q : Vec3 (num A)) : @vsub engine p q = vdiff p q.
Proof. done. Qed.

Lemma norm_of_differences (f : Vec3 (num A) → Vec3 (num A)) (x y : list (Vec3 (num A))) :
  zip_with (λ p q, norm (f (vdiff p q))) x y = norm <$> (f <$> zip_with (@vsub engine) x y).
Proof.
  revert y. induction x as [|p x IH]; intros [|q y]; try done.
  simpl. by rewrite IH.
Qed.

(** Claim C1: on the libraries of section 4.1, whenever
    [minimage_distance] and [minimage_difference_vector] both return for
    the same two groups (groups of equal size whose unit cells are both
    absent or pass the validation, identical cells included), the distances
    are the Euclidean norms of the difference vectors: there is one of each
    per atom, and the distance at every index [i] below the atom count is
    the norm of the vector at [i]. *)
Theorem distance_is_norm_of_difference_vector
    (w : @World engine) (a b : positive)
    (d : list (num A)) (v : list (Vec3 (num A))) (w1 w2 : @World engine) :
  @minimage_distance engine a b w = (Return d, w1) →
  @minimage_difference_vector engine a b w = (Return v, w2) →
  d = norm <$> v ∧
  length d = length (ag_positions (groups w a)) ∧
  length v = length (ag_positions (groups w a)) ∧
  ∀ i, (i < length (ag_positions (groups w a)))%nat →
       ∃ x, v !! i = Some x ∧ d !! i = Some (norm x).
Proof.
  rewrite minimage_distance_eval, minimage_difference_vector_eval.
  intros Hd Hv.
  pose proof (check_groups_return w a b tt) as Hchk.
  destruct (_check_groups a b w) as [[[]|e] w']; [|done].
  destruct Hchk as [Hn _]; [done|]. apply equal_sizes in Hn.
  injection Hd as Hd _.
  assert (@calc_bonds engine (ag_positions (groups w a)) (ag_positions (groups w b))
            (ag_dimensions (groups w a)) = norm <$> v) as Hnorm.
  { unfold raw_difference in Hv.
    destruct (ag_dimensions (groups w a)) as [bx|]; injection Hv as <- _.
    - apply (norm_of_differences (minimum_image bx)).
    - rewrite <-(list_fmap_id (zip_with _ _ _)) at 1.
      apply (norm_of_differences id). }
  assert (length v = length (ag_positions (groups w a))) as Hlen.
  { unfold raw_difference in Hv.
    destruct (ag_dimensions (groups w a)) as [bx|]; injection Hv as <- _.
    - simpl. unfold spec_minimize_vectors.
      by rewrite length_fmap, length_zip_with_l_eq.
    - by rewrite length_zip_with_l_eq. }
  assert (d = norm <$> v) as -> by (rewrite <-Hd; exact Hnorm).
  split; [done|]. split; [by rewrite length_fmap|]. split; [done|].
  intros i Hi. rewrite <-Hlen in Hi.
  apply lookup_lt_is_Some_2 in Hi as [x Hx].
  exists x. split; [done|]. by rewrite list_lookup_fmap, Hx.
Qed.

End Geometry.

End SpecGeometry.

(** ** A run on binary64 numbers *)

Module NormRuns.

Set Warnings "-inexact-float".

Definition binary64 : Arithmetic :=
  mkArithmetic PrimFloat.float PrimFloat.add PrimFloat.sub PrimFloat.mul PrimFloat.div
    PrimFloat.sqrt PrimFloat.ltb Binary64.of_int.

Definition engine64 : External :=
  SpecGeometry.engine binary64 Binary64.triclinic_vectors Binary64.allclose.

#[local] Existing Instance engine64.
#[local] Open Scope positive_scope.

(** Two groups of three atoms without unit cell (1, 2) and the same atoms
    in the cell of the fixtures (3, 4). *)
Definition group (n : positive) : AtomGroup :=
  match n with
  | 1 => mkAtomGroup Fixtures.pts_a None
  | 2 => mkAtomGroup Fixtures.pts_b None
  | 3 => mkAtomGroup Fixtures.pts_a (Some Fixtures.cell)
  | _ => mkAtomGroup Fixtures.pts_b (Some Fixtures.cell)
  end.

Definition world : World :=
  mkWorld group (λ _, mkUniverse None (mkAtomGroup [] None) (mkReader 0%Z 0%float 0%float)) [] [] [].

(** Without unit cell the second pair of atoms is 65 apart. *)
Example distance_without_cell :
  (minimage_distance 1 2 world).1 = Return [5; 65; 1.7320508075688772]%float ∧
  (minimage_difference_vector 1 2 world).1 =
    Return [(-3, -4, 0); (65, 0, 0); (-1, -1, -1)]%float.
Proof. split; reflexivity. Qed.

Lemma distance_is_norm_of_difference_vector_witness :
  [5; 15; 1.7320508075688772]%float =
    SpecGeometry.norm binary64 <$> [(-3, -4, 0); (-15, 0, 0); (-1, -1, -1)]%float ∧
  length [5; 15; 1.7320508075688772]%float = length (ag_positions (groups world 3)) ∧
  length [(-3, -4, 0); (-15, 0, 0); (-1, -1, -1)]%float =
    length (ag_positions (groups world 3)) ∧
  ∀ i, (i < length (ag_positions (groups world 3)))%nat →
       ∃ x, [(-3, -4, 0); (-15, 0, 0); (-1, -1, -1)]%float !! i = Some x ∧
            [5; 15; 1.7320508075688772]%float !! i = Some (SpecGeometry.norm binary64 x).
Proof.
  apply (SpecGeometry.distance_is_norm_of_difference_vector binary64
           Binary64.triclinic_vectors Binary64.allclose world 3 4 _ _
           (minimage_distance 3 4 world).2 (minimage_difference_vector 3 4 world).2).
  - apply pair_of_fst. reflexivity.
  - apply pair_of_fst. reflexivity.
Defined.

End NormRuns.
